(** * The Redpanda cluster reconciliation controller

    A shallow embedding of [src/go/k8s/controllers/redpanda/cluster_controller.go]:
    the reconcile loop [Reconcile], the three synthesizers
    [createHeadlessService], [createBootstrapConfigMap] and
    [createBootstrapStatefulSet], and [copyConfig].

    Go values are modelled as the code has them: [int] and [int32] as [Z]
    (with the wrap-around of the [int32(...)] conversion written out),
    [string] as [string], maps as [gmap], structs as records, [error] as
    [option error] ([None] is Go's [nil]), a [*int32] as an optional heap
    cell with an address, and the one slice the code compares with
    [reflect.DeepEqual] as an optional list, because a Go slice can be
    [nil]. The control plane behind [client.Client] is an interface: a type
    class over an arbitrary world. *)

From Stdlib Require Import ZArith String Ascii List Bool Lia.
From Stdlib Require Import Decimal DecimalString DecimalZ DecimalPos.
From stdpp Require Import base option gmap strings list.

Local Open Scope Z_scope.
Local Open Scope string_scope.

(** ** Go primitives *)

(** [int32(x)] for an [int] [x]: the low 32 bits, read as a signed number. *)
Definition int32_of_int (x : Z) : Z :=
  (x + 2 ^ 31) mod 2 ^ 32 - 2 ^ 31.

(** [strconv.Itoa]. *)
Definition Itoa (z : Z) : string := NilZero.string_of_int (Z.to_int z).

(** [strings.ReplaceAll s old new] for a non-empty [old]: the occurrences of
    [old] are replaced from left to right, without overlap. [skip] counts the
    characters of a match that are still to be dropped. *)
Fixpoint replace_from (skip : nat) (old new s : string) : string :=
  match s with
  | EmptyString => EmptyString
  | String c rest =>
      match skip with
      | S k => replace_from k old new rest
      | O =>
          if String.prefix old s
          then new +:+ replace_from (Nat.pred (String.length old)) old new rest
          else String c (replace_from O old new rest)
      end
  end.

Definition ReplaceAll (s old new : string) : string := replace_from O old new s.

(** [filepath.Join dir file] for the two clean, non-empty paths of this file. *)
Definition filepath_Join (dir file : string) : string := dir +:+ "/" +:+ file.

(** A Go [*int32]: [None] is [nil]; otherwise the address of the cell and the
    value stored in it. No cell of this program is written after its
    allocation, so the value travels with the address. *)
Definition addr := nat.

Record int32_cell := { cell_addr : addr; cell_val : Z }.

(** [p == q] on two [*int32]: Go compares the addresses, not the values. *)
Definition ptr_eqb (p q : option int32_cell) : bool :=
  match p, q with
  | None, None => true
  | Some a, Some b => Nat.eqb (cell_addr a) (cell_addr b)
  | _, _ => false
  end.

(** [reflect.DeepEqual] on two [[]string]: a nil slice and an empty non-nil
    slice are not deeply equal. *)
Definition DeepEqual_strings (a b : option (list string)) : bool :=
  bool_decide (a = b).

(** [reflect.DeepEqual] on two [int32]. *)
Definition DeepEqual_int32 (a b : Z) : bool := Z.eqb a b.

(** ** Errors ([k8s.io/apimachinery/pkg/api/errors]) *)

Inductive StatusReason :=
| StatusReasonNotFound
| StatusReasonAlreadyExists
| StatusReasonConflict
| StatusReasonInvalid
| StatusReasonTimeout
| StatusReasonInternalError.

Inductive error :=
| StatusError (reason : StatusReason) (message : string)
| PlainError (message : string).

(** [errors.IsNotFound]; it is false on [nil]. *)
Definition IsNotFound (err : option error) : bool :=
  match err with
  | Some (StatusError StatusReasonNotFound _) => true
  | _ => false
  end.

(** [client.IgnoreNotFound]. *)
Definition IgnoreNotFound (err : option error) : option error :=
  if IsNotFound err then None else err.

Definition is_nil (err : option error) : bool :=
  match err with None => true | Some _ => false end.

(** ** [resource.Quantity]

    A quantity is represented by its canonical string form, which is all the
    controller reads of it ([String()]). [MustParse] is exact on literals
    that are already canonical, as are the two of this file, ["2Gi"] and
    ["100Gi"]. *)
Record Quantity := { Quantity_String : string }.

Definition MustParse (s : string) : Quantity := {| Quantity_String := s |}.

(** [corev1.ResourceList]. *)
Abbreviation ResourceList := (gmap string Quantity).

(** ** [metav1] *)

Record OwnerReference := {
  ref_APIVersion : string;
  ref_Kind : string;
  ref_Name : string;
  ref_UID : string;
  ref_Controller : option bool;
  ref_BlockOwnerDeletion : option bool
}.

Record ObjectMeta := {
  Name : string;
  Namespace : string;
  UID : string;
  Labels : gmap string string;
  OwnerReferences : list OwnerReference
}.

Record LabelSelector := { MatchLabels : gmap string string }.

(** [metav1.SetAsLabelSelector]. *)
Definition SetAsLabelSelector (ls : gmap string string) : option LabelSelector :=
  Some {| MatchLabels := ls |}.

Record NamespacedName := { nn_Namespace : string; nn_Name : string }.

Definition zero_ObjectMeta : ObjectMeta :=
  {| Name := ""; Namespace := ""; UID := ""; Labels := ∅; OwnerReferences := [] |}.

(** The fields of a struct literal [metav1.ObjectMeta{Namespace, Name, Labels}]. *)
Definition mkMeta (ns name : string) (ls : gmap string string) : ObjectMeta :=
  {| Name := name; Namespace := ns; UID := ""; Labels := ls; OwnerReferences := [] |}.

Definition with_owners (m : ObjectMeta) (refs : list OwnerReference) : ObjectMeta :=
  {| Name := Name m; Namespace := Namespace m; UID := UID m; Labels := Labels m;
     OwnerReferences := refs |}.

(** ** [corev1] *)

(** [intstr.IntOrString]. *)
Inductive IntOrString :=
| IntVal (i : Z)
| StrVal (s : string).

(** [intstr.FromInt]: the value is stored as an [int32]. *)
Definition FromInt (val : Z) : IntOrString := IntVal (int32_of_int val).

Record ServicePort := {
  sp_Name : string;
  sp_Protocol : string;
  sp_Port : Z;
  sp_TargetPort : IntOrString
}.

Record ServiceSpec := {
  ss_ClusterIP : string;
  ss_Ports : list ServicePort;
  ss_Selector : gmap string string
}.

Record Service := { svc_ObjectMeta : ObjectMeta; svc_Spec : ServiceSpec }.

Record ConfigMap := { cm_ObjectMeta : ObjectMeta; cm_Data : gmap string string }.

Inductive VolumeSource :=
| PersistentVolumeClaimVolumeSource (ClaimName : string)
| ConfigMapVolumeSource (LocalObjectReference_Name : string) (DefaultMode : option Z)
| EmptyDirVolumeSource.

Record Volume := { vol_Name : string; vol_VolumeSource : VolumeSource }.

Record VolumeMount := { vm_Name : string; vm_MountPath : string }.

Record ContainerPort := { cp_Name : string; cp_ContainerPort : Z }.

Record ResourceRequirements := { Limits : ResourceList; Requests : ResourceList }.

Record Container := {
  ctr_Name : string;
  ctr_Image : string;
  ctr_Command : list string;
  ctr_Args : list string;
  ctr_Ports : list ContainerPort;
  ctr_Resources : ResourceRequirements;
  ctr_VolumeMounts : list VolumeMount
}.

Record PodSecurityContext := { FSGroup : option Z }.

Record PodAffinityTerm := {
  pat_LabelSelector : option LabelSelector;
  pat_Namespaces : list string;
  pat_TopologyKey : string
}.

Record WeightedPodAffinityTerm := {
  wpat_Weight : Z;
  wpat_PodAffinityTerm : PodAffinityTerm
}.

Record PodAntiAffinity := {
  RequiredDuringSchedulingIgnoredDuringExecution : list PodAffinityTerm;
  PreferredDuringSchedulingIgnoredDuringExecution : list WeightedPodAffinityTerm
}.

Record Affinity := { aff_PodAntiAffinity : option PodAntiAffinity }.

Record TopologySpreadConstraint := {
  tsc_MaxSkew : Z;
  tsc_TopologyKey : string;
  tsc_WhenUnsatisfiable : string;
  tsc_LabelSelector : option LabelSelector
}.

Record PodSpec := {
  pod_SecurityContext : option PodSecurityContext;
  pod_Volumes : list Volume;
  pod_InitContainers : list Container;
  pod_Containers : list Container;
  pod_Affinity : option Affinity;
  pod_TopologySpreadConstraints : list TopologySpreadConstraint
}.

Record PodTemplateSpec := { tpl_ObjectMeta : ObjectMeta; tpl_Spec : PodSpec }.

Record PersistentVolumeClaimSpec := {
  pvc_AccessModes : list string;
  pvc_Resources : ResourceRequirements
}.

Record PersistentVolumeClaim := {
  pvc_ObjectMeta : ObjectMeta;
  pvc_Spec : PersistentVolumeClaimSpec
}.

Record Pod := { pod_ObjectMeta : ObjectMeta }.

Record PodList := { Items : list Pod }.

(** The string constants of [corev1] and [appsv1] that the controller names. *)
Definition ClusterIPNone := "None".
Definition ProtocolTCP := "TCP".
Definition ReadWriteOnce := "ReadWriteOnce".
Definition LabelHostname := "kubernetes.io/hostname".
Definition LabelZoneFailureDomainStable := "topology.kubernetes.io/zone".
Definition ScheduleAnyway := "ScheduleAnyway".
Definition ParallelPodManagement := "Parallel".
Definition RollingUpdateStatefulSetStrategyType := "RollingUpdate".

Definition zero_ResourceRequirements : ResourceRequirements :=
  {| Limits := ∅; Requests := ∅ |}.

Definition zero_PodSpec : PodSpec :=
  {| pod_SecurityContext := None; pod_Volumes := []; pod_InitContainers := [];
     pod_Containers := []; pod_Affinity := None;
     pod_TopologySpreadConstraints := [] |}.

Definition zero_Service : Service :=
  {| svc_ObjectMeta := zero_ObjectMeta;
     svc_Spec := {| ss_ClusterIP := ""; ss_Ports := []; ss_Selector := ∅ |} |}.

Definition zero_ConfigMap : ConfigMap :=
  {| cm_ObjectMeta := zero_ObjectMeta; cm_Data := ∅ |}.

(** ** [appsv1]

    [StatefulSetSpec.Replicas] is a [*int32] (line 362 stores
    [pointer.Int32Ptr(1)] in it). The records take the representation of
    that pointer as a parameter [P]: [int32_cell] for an object in the
    controller's memory, [Z] for the same object on the wire, where only the
    pointed-to value exists. *)

Record StatefulSetUpdateStrategy := { us_Type : string }.

Record StatefulSetSpec (P : Type) := {
  sts_Replicas : option P;
  sts_PodManagementPolicy : string;
  sts_Selector : option LabelSelector;
  sts_UpdateStrategy : StatefulSetUpdateStrategy;
  sts_ServiceName : string;
  sts_Template : PodTemplateSpec;
  sts_VolumeClaimTemplates : list PersistentVolumeClaim
}.
Arguments sts_Replicas {P} _.
Arguments sts_PodManagementPolicy {P} _.
Arguments sts_Selector {P} _.
Arguments sts_UpdateStrategy {P} _.
Arguments sts_ServiceName {P} _.
Arguments sts_Template {P} _.
Arguments sts_VolumeClaimTemplates {P} _.

Record StatefulSetStatus := { ReadyReplicas : Z }.

Record StatefulSet (P : Type) := {
  sts_ObjectMeta : ObjectMeta;
  sts_Spec : StatefulSetSpec P;
  sts_Status : StatefulSetStatus
}.
Arguments sts_ObjectMeta {P} _.
Arguments sts_Spec {P} _.
Arguments sts_Status {P} _.

(** [var sts appsv1.StatefulSet]. *)
Definition zero_StatefulSet {P : Type} : StatefulSet P :=
  {| sts_ObjectMeta := zero_ObjectMeta;
     sts_Spec :=
       {| sts_Replicas := None; sts_PodManagementPolicy := ""; sts_Selector := None;
          sts_UpdateStrategy := {| us_Type := "" |}; sts_ServiceName := "";
          sts_Template := {| tpl_ObjectMeta := zero_ObjectMeta; tpl_Spec := zero_PodSpec |};
          sts_VolumeClaimTemplates := [] |};
     sts_Status := {| ReadyReplicas := 0 |} |}.

(** [s] with its [Spec.Replicas] pointer replaced by [p], possibly in another
    representation of pointers. *)
Definition with_sts_Replicas {P Q : Type} (s : StatefulSet P) (p : option Q)
  : StatefulSet Q :=
  {| sts_ObjectMeta := sts_ObjectMeta s;
     sts_Spec :=
       {| sts_Replicas := p;
          sts_PodManagementPolicy := sts_PodManagementPolicy (sts_Spec s);
          sts_Selector := sts_Selector (sts_Spec s);
          sts_UpdateStrategy := sts_UpdateStrategy (sts_Spec s);
          sts_ServiceName := sts_ServiceName (sts_Spec s);
          sts_Template := sts_Template (sts_Spec s);
          sts_VolumeClaimTemplates := sts_VolumeClaimTemplates (sts_Spec s) |};
     sts_Status := sts_Status s |}.

(** [sts.Spec.Replicas = p]. *)
Definition set_sts_Replicas (s : StatefulSet int32_cell) (p : option int32_cell)
  : StatefulSet int32_cell := with_sts_Replicas s p.

(** [obj.ObjectMeta.OwnerReferences = refs]. *)
Definition with_sts_owners {P : Type} (s : StatefulSet P) (refs : list OwnerReference)
  : StatefulSet P :=
  {| sts_ObjectMeta := with_owners (sts_ObjectMeta s) refs;
     sts_Spec := sts_Spec s;
     sts_Status := sts_Status s |}.

(** ** [redpandav1alpha1]: the desired-state resource *)

(** Modelled from the spec: the network configuration of the desired-state
    resource (kafka port, admin port, internal RPC port, developer-mode
    flag). The declarations of [apis/redpanda/v1alpha1] are not under src/;
    the field names are the ones the controller reads. Ports are Go [int]s
    (line 278 passes one to [strconv.Itoa]). *)
Record SpecSocketAddress := { spec_Port : Z }.

Record SpecRedpandaConfig := {
  spec_RPCServer : SpecSocketAddress;
  spec_KafkaAPI : SpecSocketAddress;
  spec_AdminAPI : SpecSocketAddress;
  spec_DeveloperMode : bool
}.

(** Modelled from the spec: the cluster specification (replica count, image
    reference and version tag, resource requests and limits, network
    configuration). [Replicas] is assigned to [sts.Spec.Replicas] at line
    161, so it has the same type [*int32]; [P] is the representation of that
    pointer, as for [StatefulSetSpec]. *)
Record ClusterSpec (P : Type) := {
  Image : string;
  Version : string;
  Replicas : option P;
  Resources : ResourceRequirements;
  Configuration : SpecRedpandaConfig
}.
Arguments Image {P} _.
Arguments Version {P} _.
Arguments Replicas {P} _.
Arguments Resources {P} _.
Arguments Configuration {P} _.

(** Modelled from the spec: the status sub-resource (node identifier list,
    ready-replica count). [Nodes] is a [[]string] (line 187 assigns
    [observedNodes] to it): [None] is the nil slice. [Replicas] has the type
    of [sts.Status.ReadyReplicas] (line 196), an [int32]. *)
Record ClusterStatus := {
  status_Replicas : Z;
  status_Nodes : option (list string)
}.

Record Cluster (P : Type) := {
  cl_ObjectMeta : ObjectMeta;
  cl_Spec : ClusterSpec P;
  cl_Status : ClusterStatus
}.
Arguments cl_ObjectMeta {P} _.
Arguments cl_Spec {P} _.
Arguments cl_Status {P} _.

(** [c] with its [Spec.Replicas] pointer replaced by [p], possibly in another
    representation of pointers. *)
Definition with_cl_Replicas {P Q : Type} (c : Cluster P) (p : option Q) : Cluster Q :=
  {| cl_ObjectMeta := cl_ObjectMeta c;
     cl_Spec :=
       {| Image := Image (cl_Spec c); Version := Version (cl_Spec c); Replicas := p;
          Resources := Resources (cl_Spec c);
          Configuration := Configuration (cl_Spec c) |};
     cl_Status := cl_Status c |}.

(** [var redpandaCluster redpandav1alpha1.Cluster]. *)
Definition zero_Cluster {P : Type} : Cluster P :=
  {| cl_ObjectMeta := zero_ObjectMeta;
     cl_Spec :=
       {| Image := ""; Version := ""; Replicas := None;
          Resources := zero_ResourceRequirements;
          Configuration :=
            {| spec_RPCServer := {| spec_Port := 0 |};
               spec_KafkaAPI := {| spec_Port := 0 |};
               spec_AdminAPI := {| spec_Port := 0 |};
               spec_DeveloperMode := false |} |};
     cl_Status := {| status_Replicas := 0; status_Nodes := None |} |}.

(** [redpandaCluster.Status.Nodes = nodes]. *)
Definition set_status_Nodes {P : Type} (c : Cluster P) (nodes : option (list string))
  : Cluster P :=
  {| cl_ObjectMeta := cl_ObjectMeta c;
     cl_Spec := cl_Spec c;
     cl_Status :=
       {| status_Replicas := status_Replicas (cl_Status c); status_Nodes := nodes |} |}.

(** [redpandaCluster.Status.Replicas = n]. *)
Definition set_status_Replicas {P : Type} (c : Cluster P) (n : Z) : Cluster P :=
  {| cl_ObjectMeta := cl_ObjectMeta c;
     cl_Spec := cl_Spec c;
     cl_Status :=
       {| status_Replicas := n; status_Nodes := status_Nodes (cl_Status c) |} |}.

(** The accessors the controller writes as [cluster.Name] and the like. *)
Definition cl_Name {P : Type} (c : Cluster P) : string := Name (cl_ObjectMeta c).
Definition cl_Namespace {P : Type} (c : Cluster P) : string := Namespace (cl_ObjectMeta c).
Definition cl_Labels {P : Type} (c : Cluster P) : gmap string string :=
  Labels (cl_ObjectMeta c).

(** ** [config]: the engine's configuration document (package [rpk/pkg/config]) *)

(** Modelled from the spec: an address of the generated configuration
    artifact, [{address, port}]. The declarations of [rpk/pkg/config] are not
    under src/. *)
Record SocketAddress := { Address : string; Port : Z }.

(** Modelled from the spec: an entry of [seed_servers], [{host, port}]. *)
Record SeedServer := { Host : SocketAddress }.

(** Modelled from the spec: the [redpanda] section of the generated
    configuration artifact, with the fields [rpc_server], [kafka_api],
    [admin_api], [advertised_rpc_api], [advertised_kafka_api],
    [data_directory], [seed_servers], [node_id] and [developer_mode]. The two
    advertised addresses are pointers in the code ([copyConfig] stores
    [&config.SocketAddress{}] in them). *)
Record RedpandaConfig := {
  Directory : string;
  RPCServer : SocketAddress;
  AdvertisedRPCAPI : option SocketAddress;
  KafkaApi : SocketAddress;
  AdvertisedKafkaApi : option SocketAddress;
  AdminApi : SocketAddress;
  Id : Z;
  SeedServers : list SeedServer;
  DeveloperMode : bool
}.

(** Modelled from the spec: the configuration document. The controller only
    touches its [redpanda] section; what else [config.Default()] fills in is
    carried along unread. *)
Record Config := { Redpanda : RedpandaConfig }.

Definition zero_SocketAddress : SocketAddress := {| Address := ""; Port := 0 |}.

(** ** Constants of the controller (lines 40-55) *)

Definition baseSuffix := "-base".
Definition dataDirectory := "/var/lib/redpanda/data".
Definition fsGroup : Z := 101.
Definition configDir := "/etc/redpanda".
Definition configuratorDir := "/mnt/operator".
Definition configuratorScript := "configurator.sh".
Definition configPath := filepath_Join configDir "redpanda.yaml".
Definition configuratorPath := filepath_Join configuratorDir configuratorScript.

(** ** [copyConfig] (lines 303-338) *)

Definition copyConfig (c : SpecRedpandaConfig) (cfgDefaults : RedpandaConfig)
  : RedpandaConfig :=
  let rpcServerPort :=
    if Z.eqb (spec_Port (spec_RPCServer c)) 0
    then Port (RPCServer cfgDefaults) else spec_Port (spec_RPCServer c) in
  let kafkaAPIPort :=
    if Z.eqb (spec_Port (spec_KafkaAPI c)) 0
    then Port (KafkaApi cfgDefaults) else spec_Port (spec_KafkaAPI c) in
  let AdminAPIPort :=
    if Z.eqb (spec_Port (spec_AdminAPI c)) 0
    then Port (AdminApi cfgDefaults) else spec_Port (spec_AdminAPI c) in
  {| Directory := "";
     RPCServer := {| Address := "0.0.0.0"; Port := rpcServerPort |};
     AdvertisedRPCAPI := Some zero_SocketAddress;
     KafkaApi := {| Address := "0.0.0.0"; Port := kafkaAPIPort |};
     AdvertisedKafkaApi := Some zero_SocketAddress;
     AdminApi := {| Address := "0.0.0.0"; Port := AdminAPIPort |};
     Id := 0;
     SeedServers := [];
     DeveloperMode := spec_DeveloperMode c |}.

(** ** The bootstrap configuration (lines 245-260)

    Field assignments on [cfg.Redpanda], one setter per assigned field. *)

Definition set_Id (r : RedpandaConfig) (id : Z) : RedpandaConfig :=
  {| Directory := Directory r; RPCServer := RPCServer r;
     AdvertisedRPCAPI := AdvertisedRPCAPI r; KafkaApi := KafkaApi r;
     AdvertisedKafkaApi := AdvertisedKafkaApi r; AdminApi := AdminApi r;
     Id := id; SeedServers := SeedServers r; DeveloperMode := DeveloperMode r |}.

Definition set_Directory (r : RedpandaConfig) (d : string) : RedpandaConfig :=
  {| Directory := d; RPCServer := RPCServer r;
     AdvertisedRPCAPI := AdvertisedRPCAPI r; KafkaApi := KafkaApi r;
     AdvertisedKafkaApi := AdvertisedKafkaApi r; AdminApi := AdminApi r;
     Id := Id r; SeedServers := SeedServers r; DeveloperMode := DeveloperMode r |}.

Definition set_SeedServers (r : RedpandaConfig) (l : list SeedServer) : RedpandaConfig :=
  {| Directory := Directory r; RPCServer := RPCServer r;
     AdvertisedRPCAPI := AdvertisedRPCAPI r; KafkaApi := KafkaApi r;
     AdvertisedKafkaApi := AdvertisedKafkaApi r; AdminApi := AdminApi r;
     Id := Id r; SeedServers := l; DeveloperMode := DeveloperMode r |}.

Definition set_AdvertisedRPCAPI (r : RedpandaConfig) (a : option SocketAddress)
  : RedpandaConfig :=
  {| Directory := Directory r; RPCServer := RPCServer r;
     AdvertisedRPCAPI := a; KafkaApi := KafkaApi r;
     AdvertisedKafkaApi := AdvertisedKafkaApi r; AdminApi := AdminApi r;
     Id := Id r; SeedServers := SeedServers r; DeveloperMode := DeveloperMode r |}.

Definition set_AdvertisedKafkaApi (r : RedpandaConfig) (a : option SocketAddress)
  : RedpandaConfig :=
  {| Directory := Directory r; RPCServer := RPCServer r;
     AdvertisedRPCAPI := AdvertisedRPCAPI r; KafkaApi := KafkaApi r;
     AdvertisedKafkaApi := a; AdminApi := AdminApi r;
     Id := Id r; SeedServers := SeedServers r; DeveloperMode := DeveloperMode r |}.

(** [p.Port = port] and [p.Address = address] through a pointer [p] to a
    socket address. The pointers written through here were allocated by
    [copyConfig] or by the configuration file's reader; on [nil] the record
    keeps no address to write to. *)
Definition with_Port (p : option SocketAddress) (port : Z) : option SocketAddress :=
  (λ a, {| Address := Address a; Port := port |}) <$> p.

Definition with_Address (p : option SocketAddress) (address : string)
  : option SocketAddress :=
  (λ a, {| Address := address; Port := Port a |}) <$> p.

(** [cluster.Name + "." + cluster.Namespace + ".svc.cluster.local"]. *)
Definition serviceAddress {P : Type} (cluster : Cluster P) : string :=
  cl_Name cluster +:+ "." +:+ cl_Namespace cluster +:+ ".svc.cluster.local".

(** The value of [cfg] when it is marshalled at line 262; [Default] is the
    document [config.Default()] returns. *)
Definition bootstrapConfig {P : Type} (Default : Config) (cluster : Cluster P) : Config :=
  let r := copyConfig (Configuration (cl_Spec cluster)) (Redpanda Default) in
  let r := set_Id r 0 in
  let r := set_AdvertisedKafkaApi r (with_Port (AdvertisedKafkaApi r) (Port (KafkaApi r))) in
  let r := set_AdvertisedRPCAPI r (with_Port (AdvertisedRPCAPI r) (Port (RPCServer r))) in
  let r := set_Directory r dataDirectory in
  let r :=
    set_SeedServers r
      [ {| Host :=
             {| Address := cl_Name cluster +:+ "-0." +:+ serviceAddress cluster;
                Port := default 0 (Port <$> AdvertisedRPCAPI r) |} |} ] in
  {| Redpanda := r |}.

(** ** The startup script (lines 267-281)

    The raw string literals of the source span several lines: every line
    break is followed by the two tabs (three inside the [if]) of the source
    file's indentation. *)

Definition NL : string := String (ascii_of_nat 10) EmptyString.
Definition TAB : string := String (ascii_of_nat 9) EmptyString.
Definition DQ : string := String (ascii_of_nat 34) EmptyString.
Definition NL2 : string := NL +:+ TAB +:+ TAB.
Definition NL3 : string := NL +:+ TAB +:+ TAB +:+ TAB.

Definition script_text (serviceAddress : string) (rpcPort kafkaPort : Z) : string :=
  "set -xe;" +:+ NL2 +:+
  "CONFIG=" +:+ configPath +:+ ";" +:+ NL2 +:+
  "ORDINAL_INDEX=${HOSTNAME##*-};" +:+ NL2 +:+
  "SERVICE_NAME=${HOSTNAME}." +:+ serviceAddress +:+ NL2 +:+
  "cp /mnt/operator/redpanda.yaml $CONFIG;" +:+ NL2 +:+
  "rpk --config $CONFIG config set redpanda.node_id $ORDINAL_INDEX;" +:+ NL2 +:+
  "if [ " +:+ DQ +:+ "$ORDINAL_INDEX" +:+ DQ +:+ " = " +:+ DQ +:+ "0" +:+ DQ +:+ " ]; then" +:+ NL3 +:+
  "rpk --config $CONFIG config set redpanda.seed_servers '[]' --format yaml;" +:+ NL2 +:+
  "fi;" +:+ NL2 +:+
  "rpk --config $CONFIG config set redpanda.advertised_rpc_api.address $SERVICE_NAME;" +:+ NL2 +:+
  "rpk --config $CONFIG config set redpanda.advertised_rpc_api.port " +:+ Itoa rpcPort +:+ ";" +:+ NL2 +:+
  "rpk --config $CONFIG config set redpanda.advertised_kafka_api.address $SERVICE_NAME;" +:+ NL2 +:+
  "rpk --config $CONFIG config set redpanda.advertised_kafka_api.port " +:+ Itoa kafkaPort +:+ ";" +:+ NL2 +:+
  "cat $CONFIG".

(** [script] as line 267 builds it from [cfg]. *)
Definition script {P : Type} (cluster : Cluster P) (cfg : Config) : string :=
  script_text (serviceAddress cluster)
    (default 0 (Port <$> AdvertisedRPCAPI (Redpanda cfg)))
    (default 0 (Port <$> AdvertisedKafkaApi (Redpanda cfg))).

(** ** The synthesized objects (the struct literals of the three synthesizers) *)

(** Lines 212-230. *)
Definition headlessService {P : Type} (clusterSpec : Cluster P) : Service :=
  let port := spec_Port (spec_KafkaAPI (Configuration (cl_Spec clusterSpec))) in
  {| svc_ObjectMeta :=
       mkMeta (cl_Namespace clusterSpec) (cl_Name clusterSpec) (cl_Labels clusterSpec);
     svc_Spec :=
       {| ss_ClusterIP := ClusterIPNone;
          ss_Ports :=
            [ {| sp_Name := "kafka-tcp"; sp_Protocol := ProtocolTCP;
                 sp_Port := int32_of_int port; sp_TargetPort := FromInt port |} ];
          ss_Selector := cl_Labels clusterSpec |} |}.

(** Lines 283-293; [cfgBytes] is the marshalled configuration. *)
Definition bootstrapConfigMap {P : Type} (cluster : Cluster P) (cfgBytes script : string)
  : ConfigMap :=
  {| cm_ObjectMeta :=
       mkMeta (cl_Namespace cluster) (cl_Name cluster +:+ baseSuffix) (cl_Labels cluster);
     cm_Data := <["redpanda.yaml" := cfgBytes]> (<["configurator.sh" := script]> ∅) |}.

(** Lines 350-353: the memory limit the engine's flag is derived from. *)
Definition memoryLimit {P : Type} (cluster : Cluster P) : Quantity :=
  match Limits (Resources (cl_Spec cluster)) !! "memory" with
  | Some memory => memory
  | None => MustParse "2Gi"
  end.

(** Lines 355-515. [replicas] is the pointer [pointer.Int32Ptr(1)] returns. *)
Definition bootstrapStatefulSet {P : Type} (cluster : Cluster P) (configMapName : string)
    (replicas : P) : StatefulSet P :=
  let configMapDefaultMode : Z := 492 (* 0754 *) in
  let memory := memoryLimit cluster in
  let image := Image (cl_Spec cluster) +:+ ":" +:+ Version (cl_Spec cluster) in
  let conf := Configuration (cl_Spec cluster) in
  {| sts_ObjectMeta :=
       mkMeta (cl_Namespace cluster) (cl_Name cluster) (cl_Labels cluster);
     sts_Spec :=
       {| sts_Replicas := Some replicas;
          sts_PodManagementPolicy := ParallelPodManagement;
          sts_Selector := SetAsLabelSelector (cl_Labels cluster);
          sts_UpdateStrategy := {| us_Type := RollingUpdateStatefulSetStrategyType |};
          sts_ServiceName := cl_Name cluster;
          sts_Template :=
            {| tpl_ObjectMeta :=
                 mkMeta (cl_Namespace cluster) (cl_Name cluster) (cl_Labels cluster);
               tpl_Spec :=
                 {| pod_SecurityContext := Some {| FSGroup := Some fsGroup |};
                    pod_Volumes :=
                      [ {| vol_Name := "datadir";
                           vol_VolumeSource := PersistentVolumeClaimVolumeSource "datadir" |};
                        {| vol_Name := "configmap-dir";
                           vol_VolumeSource :=
                             ConfigMapVolumeSource configMapName (Some configMapDefaultMode) |};
                        {| vol_Name := "config-dir";
                           vol_VolumeSource := EmptyDirVolumeSource |} ];
                    pod_InitContainers :=
                      [ {| ctr_Name := "redpanda-configurator";
                           ctr_Image := image;
                           ctr_Command := ["/bin/sh"; "-c"];
                           ctr_Args := [configuratorPath];
                           ctr_Ports := [];
                           ctr_Resources := zero_ResourceRequirements;
                           ctr_VolumeMounts :=
                             [ {| vm_Name := "config-dir"; vm_MountPath := configDir |};
                               {| vm_Name := "configmap-dir";
                                  vm_MountPath := configuratorDir |} ] |} ];
                    pod_Containers :=
                      [ {| ctr_Name := "redpanda";
                           ctr_Image := image;
                           ctr_Command := [];
                           ctr_Args :=
                             [ "--check=false";
                               "--smp 1";
                               "--memory " +:+ ReplaceAll (Quantity_String memory) "Gi" "G";
                               "start";
                               "--";
                               "--default-log-level=debug";
                               "--reserve-memory 0M" ];
                           ctr_Ports :=
                             [ {| cp_Name := "admin";
                                  cp_ContainerPort :=
                                    int32_of_int (spec_Port (spec_AdminAPI conf)) |};
                               {| cp_Name := "kafka";
                                  cp_ContainerPort :=
                                    int32_of_int (spec_Port (spec_KafkaAPI conf)) |};
                               {| cp_Name := "rpc";
                                  cp_ContainerPort :=
                                    int32_of_int (spec_Port (spec_RPCServer conf)) |} ];
                           ctr_Resources :=
                             {| Limits := Limits (Resources (cl_Spec cluster));
                                Requests := Requests (Resources (cl_Spec cluster)) |};
                           ctr_VolumeMounts :=
                             [ {| vm_Name := "datadir"; vm_MountPath := dataDirectory |};
                               {| vm_Name := "config-dir"; vm_MountPath := configDir |} ] |} ];
                    pod_Affinity :=
                      Some
                        {| aff_PodAntiAffinity :=
                             Some
                               {| RequiredDuringSchedulingIgnoredDuringExecution :=
                                    [ {| pat_LabelSelector :=
                                           SetAsLabelSelector (cl_Labels cluster);
                                         pat_Namespaces := [cl_Namespace cluster];
                                         pat_TopologyKey := LabelHostname |} ];
                                  PreferredDuringSchedulingIgnoredDuringExecution :=
                                    [ {| wpat_Weight := 100;
                                         wpat_PodAffinityTerm :=
                                           {| pat_LabelSelector :=
                                                SetAsLabelSelector (cl_Labels cluster);
                                              pat_Namespaces := [cl_Namespace cluster];
                                              pat_TopologyKey := LabelHostname |} |} ] |} |};
                    pod_TopologySpreadConstraints :=
                      [ {| tsc_MaxSkew := 1;
                           tsc_TopologyKey := LabelZoneFailureDomainStable;
                           tsc_WhenUnsatisfiable := ScheduleAnyway;
                           tsc_LabelSelector := SetAsLabelSelector (cl_Labels cluster) |} ] |} |};
          sts_VolumeClaimTemplates :=
            [ {| pvc_ObjectMeta := mkMeta (cl_Namespace cluster) "datadir" (cl_Labels cluster);
                 pvc_Spec :=
                   {| pvc_AccessModes := [ReadWriteOnce];
                      pvc_Resources :=
                        {| Limits := ∅;
                           Requests := {[ "storage" := MustParse "100Gi" ]} |} |} |} ] |};
     sts_Status := {| ReadyReplicas := 0 |} |}.

(** ** Owner references ([controllerutil.SetControllerReference]) *)

Record GroupVersionKind := { gvk_Group : string; gvk_Version : string; gvk_Kind : string }.

(** [runtime.Scheme]: the controller only asks it for the kind of the
    [Cluster] type; [None] when that type was never registered. *)
Record Scheme := { ClusterKind : option GroupVersionKind }.

(** The owner must not live in another namespace than the object it owns, its
    kind must be known to the scheme, and the object must not be controlled
    by someone else already. On success the controller reference is added
    to the object's metadata. *)
Definition SetControllerReference {P : Type} (owner : Cluster P) (controlled : ObjectMeta)
    (scheme : Scheme) : ObjectMeta * option error :=
  let ownerNs := cl_Namespace owner in
  if negb (String.eqb ownerNs "") && String.eqb (Namespace controlled) ""
  then (controlled,
        Some (PlainError "cluster-scoped resource must not have a namespace-scoped owner"))
  else if negb (String.eqb ownerNs "") && negb (String.eqb ownerNs (Namespace controlled))
  then (controlled, Some (PlainError "cross-namespace owner references are disallowed"))
  else
    match ClusterKind scheme with
    | None => (controlled, Some (PlainError "no kind is registered for the type Cluster"))
    | Some gvk =>
        let ref :=
          {| ref_APIVersion := gvk_Group gvk +:+ "/" +:+ gvk_Version gvk;
             ref_Kind := gvk_Kind gvk;
             ref_Name := cl_Name owner;
             ref_UID := UID (cl_ObjectMeta owner);
             ref_Controller := Some true;
             ref_BlockOwnerDeletion := Some true |} in
        match filter (λ r, ref_Controller r = Some true) (OwnerReferences controlled) with
        | [] => (with_owners controlled (OwnerReferences controlled ++ [ref]), None)
        | _ :: _ => (controlled, Some (PlainError "Object is already owned by another controller"))
        end
    end.

(** ** The control plane ([client.Client]) *)

(** [labels.Selector], as [labels.SelectorFromSet] builds it. *)
Inductive Selector :=
| SelectorFromSet (ls : gmap string string).

Record ListOptions := { lo_LabelSelector : Selector; lo_Namespace : string }.

(** The remote calls of the controller. Objects travel in their wire form,
    where a [*int32] is the number it points to. *)
Inductive Call :=
| CallGetCluster (key : NamespacedName)
| CallGetService (key : NamespacedName)
| CallGetConfigMap (key : NamespacedName)
| CallGetStatefulSet (key : NamespacedName)
| CallCreateService (obj : Service)
| CallCreateConfigMap (obj : ConfigMap)
| CallCreateStatefulSet (obj : StatefulSet Z)
| CallUpdateStatefulSet (obj : StatefulSet Z)
| CallListPods (opts : ListOptions)
| CallStatusUpdate (obj : Cluster Z).

Inductive Response :=
| Failed (err : error)
| Succeeded
| GotCluster (obj : Cluster Z)
| GotService (obj : Service)
| GotConfigMap (obj : ConfigMap)
| GotStatefulSet (obj : StatefulSet Z)
| GotPods (pods : PodList).

Definition Event : Type := Call * Response.

(** The interface [client.Client], one method per verb and kind the
    controller uses, over a control plane of any type [W]. A read answers
    with an error or with the object; a write answers with an error or
    [None]. *)
Class Client (W : Type) := {
  Get_Cluster : NamespacedName → W → (error + Cluster Z) * W;
  Get_Service : NamespacedName → W → (error + Service) * W;
  Get_ConfigMap : NamespacedName → W → (error + ConfigMap) * W;
  Get_StatefulSet : NamespacedName → W → (error + StatefulSet Z) * W;
  Create_Service : Service → W → option error * W;
  Create_ConfigMap : ConfigMap → W → option error * W;
  Create_StatefulSet : StatefulSet Z → W → option error * W;
  Update_StatefulSet : StatefulSet Z → W → option error * W;
  List_Pods : ListOptions → W → (error + PodList) * W;
  Status_Update : Cluster Z → W → option error * W
}.

(** ** The controller's machine

    One invocation runs against a control plane [world], allocates Go heap
    cells at increasing addresses from [next], and leaves the [trace] of its
    remote calls with their answers, oldest first. *)
Record Machine (W : Type) := {
  world : W;
  next : addr;
  trace : list Event
}.
Arguments world {W} _.
Arguments next {W} _.
Arguments trace {W} _.

(** A Go statement sequence inside a function that returns [R]: it either
    runs on with a value ([inl]) or executes a [return] ([inr]). *)
Definition Go (W R A : Type) : Type := Machine W → (A + R) * Machine W.

#[export] Instance Go_ret {W R} : MRet (Go W R) := λ A a m, (inl a, m).

#[export] Instance Go_bind {W R} : MBind (Go W R) :=
  λ A B f c m,
    match c m with
    | (inl a, m') => f a m'
    | (inr r, m') => (inr r, m')
    end.

(** [return r]. *)
Definition return_ {W R A} (r : R) : Go W R A := λ m, (inr r, m).

(** [if b { body }]. *)
Definition when {W R} (b : bool) (body : Go W R unit) : Go W R unit :=
  if b then body else mret tt.

(** A call of a function whose body is [f]: its [return] ends the callee,
    not the caller. *)
Definition call_fn {W R R'} (f : Go W R R) : Go W R' R :=
  λ m,
    match f m with
    | (inl r, m') => (inl r, m')
    | (inr r, m') => (inl r, m')
    end.

(** The result of running a function body from a machine state. *)
Definition run {W R} (f : Go W R R) (m : Machine W) : R * Machine W :=
  match f m with
  | (inl r, m') => (r, m')
  | (inr r, m') => (r, m')
  end.

(** A fresh [int32] cell holding [v] ([pointer.Int32Ptr], or the decoder of
    an API object filling a pointer field). *)
Definition new_int32 {W R} (v : Z) : Go W R int32_cell :=
  λ m, (inl {| cell_addr := next m; cell_val := v |},
        {| world := world m; next := S (next m); trace := trace m |}).

Definition decode_ptr {W R} (p : option Z) : Go W R (option int32_cell) :=
  match p with
  | None => mret None
  | Some v => c ← new_int32 v; mret (Some c)
  end.

(** Decoding an answer into the caller's variable allocates its pointer
    fields; encoding an object for the wire reads through them. *)
Definition decode_Cluster {W R} (c : Cluster Z) : Go W R (Cluster int32_cell) :=
  p ← decode_ptr (Replicas (cl_Spec c)); mret (with_cl_Replicas c p).

Definition decode_StatefulSet {W R} (s : StatefulSet Z) : Go W R (StatefulSet int32_cell) :=
  p ← decode_ptr (sts_Replicas (sts_Spec s)); mret (with_sts_Replicas s p).

Definition encode_Cluster (c : Cluster int32_cell) : Cluster Z :=
  with_cl_Replicas c (cell_val <$> Replicas (cl_Spec c)).

Definition encode_StatefulSet (s : StatefulSet int32_cell) : StatefulSet Z :=
  with_sts_Replicas s (cell_val <$> sts_Replicas (sts_Spec s)).

Definition response_of_read {A} (got : A → Response) (r : error + A) : Response :=
  match r with inl e => Failed e | inr a => got a end.

Definition response_of_write (r : option error) : Response :=
  match r with Some e => Failed e | None => Succeeded end.

Section Controller.

Context {W : Type} `{!Client W}.

(** One remote call [c], answered by the control plane through [f]; the call
    and its answer are appended to the trace. *)
Definition remote {R A} (c : Call) (f : W → A * W) (resp : A → Response) : Go W R A :=
  λ m,
    let '(a, w') := f (world m) in
    (inl a, {| world := w'; next := next m; trace := trace m ++ [(c, resp a)] |}).

(** [r.Get(ctx, key, &obj)]: on an error [obj] is left as it was. *)
Definition r_Get_Cluster {R} (key : NamespacedName) (obj : Cluster int32_cell)
  : Go W R (Cluster int32_cell * option error) :=
  res ← remote (CallGetCluster key) (Get_Cluster key) (response_of_read GotCluster);
  match res with
  | inl e => mret (obj, Some e)
  | inr c => obj' ← decode_Cluster c; mret (obj', None)
  end.

Definition r_Get_Service {R} (key : NamespacedName) (obj : Service)
  : Go W R (Service * option error) :=
  res ← remote (CallGetService key) (Get_Service key) (response_of_read GotService);
  match res with
  | inl e => mret (obj, Some e)
  | inr s => mret (s, None)
  end.

Definition r_Get_ConfigMap {R} (key : NamespacedName) (obj : ConfigMap)
  : Go W R (ConfigMap * option error) :=
  res ← remote (CallGetConfigMap key) (Get_ConfigMap key) (response_of_read GotConfigMap);
  match res with
  | inl e => mret (obj, Some e)
  | inr c => mret (c, None)
  end.

Definition r_Get_StatefulSet {R} (key : NamespacedName) (obj : StatefulSet int32_cell)
  : Go W R (StatefulSet int32_cell * option error) :=
  res ← remote (CallGetStatefulSet key) (Get_StatefulSet key)
          (response_of_read GotStatefulSet);
  match res with
  | inl e => mret (obj, Some e)
  | inr s => obj' ← decode_StatefulSet s; mret (obj', None)
  end.

(** [r.Create(ctx, obj)]. *)
Definition r_Create_Service {R} (obj : Service) : Go W R (option error) :=
  remote (CallCreateService obj) (Create_Service obj) response_of_write.

Definition r_Create_ConfigMap {R} (obj : ConfigMap) : Go W R (option error) :=
  remote (CallCreateConfigMap obj) (Create_ConfigMap obj) response_of_write.

Definition r_Create_StatefulSet {R} (obj : StatefulSet int32_cell) : Go W R (option error) :=
  remote (CallCreateStatefulSet (encode_StatefulSet obj))
    (Create_StatefulSet (encode_StatefulSet obj)) response_of_write.

(** [r.Update(ctx, &sts)]. The server's copy that a successful write decodes
    back into the object is the object that was sent, for the fields
    modelled here. *)
Definition r_Update_StatefulSet {R} (obj : StatefulSet int32_cell) : Go W R (option error) :=
  remote (CallUpdateStatefulSet (encode_StatefulSet obj))
    (Update_StatefulSet (encode_StatefulSet obj)) response_of_write.

(** [r.List(ctx, &observedPods, opts)]. *)
Definition r_List_Pods {R} (pods : PodList) (opts : ListOptions)
  : Go W R (PodList * option error) :=
  res ← remote (CallListPods opts) (List_Pods opts) (response_of_read GotPods);
  match res with
  | inl e => mret (pods, Some e)
  | inr l => mret (l, None)
  end.

(** [r.Status().Update(ctx, &redpandaCluster)]. *)
Definition r_Status_Update {R} (obj : Cluster int32_cell) : Go W R (option error) :=
  remote (CallStatusUpdate (encode_Cluster obj)) (Status_Update (encode_Cluster obj))
    response_of_write.

End Controller.

(** ** The reconciler *)

(** The loop of lines 180-184: the names of the listed pods, in the order of
    the listing. *)
Definition pod_names (pods : PodList) : list string :=
  map (λ item, Name (pod_ObjectMeta item)) (Items pods).

(** [ctrl.Request] and [ctrl.Result]. *)
Record Request := { req_NamespacedName : NamespacedName }.

Record Result := { Requeue : bool; RequeueAfter : Z }.

Definition Result_zero : Result := {| Requeue := false; RequeueAfter := 0 |}.

(** [ClusterReconciler]: the client is the [Client] instance; the logger
    takes no part in the control flow and is left out. *)
Record ClusterReconciler := { r_Scheme : Scheme }.

Section Reconciler.

Context {W : Type} `{!Client W}.

(** [config.Default()] and [yaml.Marshal] belong to packages that are not
    under src/: the document of compiled-in defaults and the marshaller are
    taken as given. *)
Variable config_Default : Config.
Variable yaml_Marshal : Config → string * option error.

(** Lines 207-238. *)
Definition createHeadlessService (clusterSpec : Cluster int32_cell) (scheme : Scheme)
  : Go W (option error) (option error) :=
  let svc := headlessService clusterSpec in
  let '(meta, err) := SetControllerReference clusterSpec (svc_ObjectMeta svc) scheme in
  let svc := {| svc_ObjectMeta := meta; svc_Spec := svc_Spec svc |} in
  when (negb (is_nil err)) (return_ err);;
  r_Create_Service svc.

(** Lines 240-301. *)
Definition createBootstrapConfigMap (cluster : Cluster int32_cell) (scheme : Scheme)
  : Go W (option error) (option error) :=
  let cfg := bootstrapConfig config_Default cluster in
  let '(cfgBytes, err) := yaml_Marshal cfg in
  when (negb (is_nil err)) (return_ err);;
  let cm := bootstrapConfigMap cluster cfgBytes (script cluster cfg) in
  let '(meta, err) := SetControllerReference cluster (cm_ObjectMeta cm) scheme in
  let cm := {| cm_ObjectMeta := meta; cm_Data := cm_Data cm |} in
  when (negb (is_nil err)) (return_ err);;
  r_Create_ConfigMap cm.

(** Lines 341-523. *)
Definition createBootstrapStatefulSet (cluster : Cluster int32_cell) (scheme : Scheme)
    (configMapName : string) : Go W (option error) (option error) :=
  one ← new_int32 1;
  let ss := bootstrapStatefulSet cluster configMapName one in
  let '(meta, err) := SetControllerReference cluster (sts_ObjectMeta ss) scheme in
  let ss := with_sts_owners ss (OwnerReferences meta) in
  when (negb (is_nil err)) (return_ err);;
  r_Create_StatefulSet ss.

(** Lines 81-205. *)
Definition Reconcile (r : ClusterReconciler) (req : Request)
  : Go W (Result * option error) (Result * option error) :=
  '(redpandaCluster, err) ← r_Get_Cluster (req_NamespacedName req) zero_Cluster;
  when (negb (is_nil err)) (return_ (Result_zero, IgnoreNotFound err));;

  '(svc, err) ←
    r_Get_Service
      {| nn_Name := cl_Name redpandaCluster; nn_Namespace := cl_Namespace redpandaCluster |}
      zero_Service;
  when (negb (is_nil err) && negb (IsNotFound err)) (return_ (Result_zero, err));;
  when (IsNotFound err)
    (err ← call_fn (createHeadlessService redpandaCluster (r_Scheme r));
     when (negb (is_nil err)) (return_ (Result_zero, err)));;

  '(baseConfigMap, err) ←
    r_Get_ConfigMap
      {| nn_Name := cl_Name redpandaCluster +:+ baseSuffix;
         nn_Namespace := cl_Namespace redpandaCluster |}
      zero_ConfigMap;
  when (negb (is_nil err) && negb (IsNotFound err)) (return_ (Result_zero, err));;
  when (IsNotFound err)
    (err ← call_fn (createBootstrapConfigMap redpandaCluster (r_Scheme r));
     when (negb (is_nil err)) (return_ (Result_zero, err)));;

  '(sts, err) ←
    r_Get_StatefulSet
      {| nn_Name := cl_Name redpandaCluster; nn_Namespace := cl_Namespace redpandaCluster |}
      zero_StatefulSet;
  when (negb (is_nil err) && negb (IsNotFound err)) (return_ (Result_zero, err));;
  when (IsNotFound err)
    (err ← call_fn
             (createBootstrapStatefulSet redpandaCluster (r_Scheme r)
                (cl_Name redpandaCluster +:+ baseSuffix));
     when (negb (is_nil err)) (return_ (Result_zero, err)));;

  (* Ensure StatefulSet #replicas equals cluster requirement. *)
  sts ←
    (if negb (ptr_eqb (sts_Replicas (sts_Spec sts)) (Replicas (cl_Spec redpandaCluster)))
     then
       let sts := set_sts_Replicas sts (Replicas (cl_Spec redpandaCluster)) in
       err ← r_Update_StatefulSet sts;
       when (negb (is_nil err)) (return_ (Result_zero, err));;
       mret sts
     else mret sts);

  '(observedPods, err) ←
    r_List_Pods {| Items := [] |}
      {| lo_LabelSelector := SelectorFromSet (cl_Labels redpandaCluster);
         lo_Namespace := cl_Namespace redpandaCluster |};
  when (negb (is_nil err)) (return_ (Result_zero, err));;

  let observedNodes := Some (pod_names observedPods) in

  redpandaCluster ←
    (if negb (DeepEqual_strings observedNodes (status_Nodes (cl_Status redpandaCluster)))
     then
       let redpandaCluster := set_status_Nodes redpandaCluster observedNodes in
       err ← r_Status_Update redpandaCluster;
       when (negb (is_nil err)) (return_ (Result_zero, err));;
       mret redpandaCluster
     else mret redpandaCluster);

  redpandaCluster ←
    (if negb (DeepEqual_int32 (ReadyReplicas (sts_Status sts))
                (status_Replicas (cl_Status redpandaCluster)))
     then
       let redpandaCluster :=
         set_status_Replicas redpandaCluster (ReadyReplicas (sts_Status sts)) in
       err ← r_Status_Update redpandaCluster;
       when (negb (is_nil err)) (return_ (Result_zero, err));;
       mret redpandaCluster
     else mret redpandaCluster);

  mret (Result_zero, None).

(** One invocation of the loop on a control plane [w], with a Go heap whose
    next free address is [h]: what it returns, the calls it made with their
    answers, and the control plane it leaves. *)
Definition invoke (r : ClusterReconciler) (req : Request) (w : W) (h : addr)
  : (Result * option error) * Machine W :=
  run (Reconcile r req) {| world := w; next := h; trace := [] |}.

End Reconciler.

(** ** An in-memory control plane

    A control plane that stores what it is sent and answers from what it
    stores, in the manner of controller-runtime's fake client. It stands for
    "no external change": between two invocations nothing but the controller
    writes to it. *)

Record ControlPlane := {
  cp_Clusters : gmap (string * string) (Cluster Z);
  cp_Services : gmap (string * string) Service;
  cp_ConfigMaps : gmap (string * string) ConfigMap;
  cp_StatefulSets : gmap (string * string) (StatefulSet Z);
  cp_Pods : list Pod
}.

Definition key_of (k : NamespacedName) : string * string := (nn_Namespace k, nn_Name k).

Definition meta_key (m : ObjectMeta) : string * string := (Namespace m, Name m).

Definition NewNotFound (kind name : string) : error :=
  StatusError StatusReasonNotFound (kind +:+ " " +:+ name +:+ " not found").

Definition NewAlreadyExists (kind name : string) : error :=
  StatusError StatusReasonAlreadyExists (kind +:+ " " +:+ name +:+ " already exists").

Definition NewInvalid (kind : string) : error :=
  StatusError StatusReasonInvalid (kind +:+ ": resource name may not be empty").

Definition fake_get {A} (kind : string) (store : gmap (string * string) A)
    (key : NamespacedName) : error + A :=
  match store !! key_of key with
  | Some obj => inr obj
  | None => inl (NewNotFound kind (nn_Name key))
  end.

(** A create is refused for an object without a name and for a name that is
    taken. *)
Definition fake_create {A} (kind : string) (store : gmap (string * string) A)
    (m : ObjectMeta) (obj : A) : option error * gmap (string * string) A :=
  if String.eqb (Name m) "" then (Some (NewInvalid kind), store)
  else
    match store !! meta_key m with
    | Some _ => (Some (NewAlreadyExists kind (Name m)), store)
    | None => (None, <[meta_key m := obj]> store)
    end.

(** A pod is selected when it carries every label of the selector. *)
Definition selects (sel : Selector) (p : Pod) : bool :=
  match sel with
  | SelectorFromSet ls =>
      bool_decide (map_Forall (λ k v, Labels (pod_ObjectMeta p) !! k = Some v) ls)
  end.

Definition fake_list (opts : ListOptions) (pods : list Pod) : PodList :=
  {| Items :=
       List.filter
         (λ p, (String.eqb (lo_Namespace opts) ""
                || String.eqb (Namespace (pod_ObjectMeta p)) (lo_Namespace opts))
               && selects (lo_LabelSelector opts) p)
         pods |}.

Definition with_Services (w : ControlPlane) s : ControlPlane :=
  {| cp_Clusters := cp_Clusters w; cp_Services := s; cp_ConfigMaps := cp_ConfigMaps w;
     cp_StatefulSets := cp_StatefulSets w; cp_Pods := cp_Pods w |}.

Definition with_ConfigMaps (w : ControlPlane) s : ControlPlane :=
  {| cp_Clusters := cp_Clusters w; cp_Services := cp_Services w; cp_ConfigMaps := s;
     cp_StatefulSets := cp_StatefulSets w; cp_Pods := cp_Pods w |}.

Definition with_StatefulSets (w : ControlPlane) s : ControlPlane :=
  {| cp_Clusters := cp_Clusters w; cp_Services := cp_Services w;
     cp_ConfigMaps := cp_ConfigMaps w; cp_StatefulSets := s; cp_Pods := cp_Pods w |}.

Definition with_Clusters (w : ControlPlane) s : ControlPlane :=
  {| cp_Clusters := s; cp_Services := cp_Services w; cp_ConfigMaps := cp_ConfigMaps w;
     cp_StatefulSets := cp_StatefulSets w; cp_Pods := cp_Pods w |}.

(** An update of a node set replaces its metadata and spec and keeps the
    status the control plane has on record; a status update of a cluster
    replaces its status only. *)
Definition fake_update_sts (obj : StatefulSet Z) (w : ControlPlane)
  : option error * ControlPlane :=
  if String.eqb (Name (sts_ObjectMeta obj)) "" then (Some (NewInvalid "StatefulSet"), w)
  else
    match cp_StatefulSets w !! meta_key (sts_ObjectMeta obj) with
    | None => (Some (NewNotFound "StatefulSet" (Name (sts_ObjectMeta obj))), w)
    | Some old =>
        (None,
         with_StatefulSets w
           (<[meta_key (sts_ObjectMeta obj) :=
                {| sts_ObjectMeta := sts_ObjectMeta obj; sts_Spec := sts_Spec obj;
                   sts_Status := sts_Status old |}]> (cp_StatefulSets w)))
    end.

Definition fake_status_update (obj : Cluster Z) (w : ControlPlane)
  : option error * ControlPlane :=
  match cp_Clusters w !! meta_key (cl_ObjectMeta obj) with
  | None => (Some (NewNotFound "Cluster" (cl_Name obj)), w)
  | Some old =>
      (None,
       with_Clusters w
         (<[meta_key (cl_ObjectMeta obj) :=
              {| cl_ObjectMeta := cl_ObjectMeta old; cl_Spec := cl_Spec old;
                 cl_Status := cl_Status obj |}]> (cp_Clusters w)))
  end.

#[export] Instance FakeClient : Client ControlPlane := {
  Get_Cluster key w := (fake_get "Cluster" (cp_Clusters w) key, w);
  Get_Service key w := (fake_get "Service" (cp_Services w) key, w);
  Get_ConfigMap key w := (fake_get "ConfigMap" (cp_ConfigMaps w) key, w);
  Get_StatefulSet key w := (fake_get "StatefulSet" (cp_StatefulSets w) key, w);
  Create_Service obj w :=
    let '(err, s) := fake_create "Service" (cp_Services w) (svc_ObjectMeta obj) obj in
    (err, with_Services w s);
  Create_ConfigMap obj w :=
    let '(err, s) := fake_create "ConfigMap" (cp_ConfigMaps w) (cm_ObjectMeta obj) obj in
    (err, with_ConfigMaps w s);
  Create_StatefulSet obj w :=
    let '(err, s) :=
      fake_create "StatefulSet" (cp_StatefulSets w) (sts_ObjectMeta obj) obj in
    (err, with_StatefulSets w s);
  Update_StatefulSet := fake_update_sts;
  List_Pods opts w := (inr (fake_list opts (cp_Pods w)), w);
  Status_Update := fake_status_update
}.

(** ** The startup script as a program

    The text of [script] is a shell program. Its commands are embedded here
    with the fragment of the shell they use: assignments, parameter
    expansion (also [${x##*-}], which drops the longest prefix that ends in
    a hyphen), [cp], [cat], the [rpk config set] command and one [if] on a
    string equality. [render_Script] prints a program back to the text of
    the source. *)

Inductive Part :=
| Lit (s : string)
| Param (x : string)
| ParamBraced (x : string)
| ParamAfterLastHyphen (x : string)
| QuotedParam (x : string)
| QuotedLit (s : string)
| SingleQuoted (s : string).

Definition Word := list Part.

Inductive Command :=
| SetOptions (flags : string)
| Assign (x : string) (w : Word)
| Cp (src dst : Word)
| RpkConfigSet (config : Word) (key : string) (value : Word) (format : option string)
| IfTestEq (lhs rhs : Word) (body : Command)
| Cat (file : Word).

(** A command and whether a semicolon follows it on its line. *)
Definition Script := list (Command * bool).

Definition render_Part (p : Part) : string :=
  match p with
  | Lit s => s
  | Param x => "$" +:+ x
  | ParamBraced x => "${" +:+ x +:+ "}"
  | ParamAfterLastHyphen x => "${" +:+ x +:+ "##*-}"
  | QuotedParam x => DQ +:+ "$" +:+ x +:+ DQ
  | QuotedLit s => DQ +:+ s +:+ DQ
  | SingleQuoted s => "'" +:+ s +:+ "'"
  end.

Fixpoint render_Word (w : Word) : string :=
  match w with
  | [] => ""
  | p :: w' => render_Part p +:+ render_Word w'
  end.

Fixpoint render_Command (c : Command) : string :=
  match c with
  | SetOptions flags => "set -" +:+ flags
  | Assign x w => x +:+ "=" +:+ render_Word w
  | Cp src dst => "cp " +:+ render_Word src +:+ " " +:+ render_Word dst
  | RpkConfigSet config key value format =>
      "rpk --config " +:+ render_Word config +:+ " config set " +:+ key +:+ " "
      +:+ render_Word value
      +:+ match format with Some f => " --format " +:+ f | None => "" end
  | IfTestEq lhs rhs body =>
      "if [ " +:+ render_Word lhs +:+ " = " +:+ render_Word rhs +:+ " ]; then" +:+ NL3
      +:+ render_Command body +:+ ";" +:+ NL2 +:+ "fi"
  | Cat file => "cat " +:+ render_Word file
  end.

Definition render_item (i : Command * bool) : string :=
  render_Command (fst i) +:+ (if snd i then ";" else "").

Fixpoint render_Script (s : Script) : string :=
  match s with
  | [] => ""
  | [i] => render_item i
  | i :: s' => render_item i +:+ NL2 +:+ render_Script s'
  end.

(** The program of lines 268-281. *)
Definition configurator (serviceAddress : string) (rpcPort kafkaPort : Z) : Script :=
  [ (SetOptions "xe", true);
    (Assign "CONFIG" [Lit configPath], true);
    (Assign "ORDINAL_INDEX" [ParamAfterLastHyphen "HOSTNAME"], true);
    (Assign "SERVICE_NAME" [ParamBraced "HOSTNAME"; Lit "."; Lit serviceAddress], false);
    (Cp [Lit "/mnt/operator/redpanda.yaml"] [Param "CONFIG"], true);
    (RpkConfigSet [Param "CONFIG"] "redpanda.node_id" [Param "ORDINAL_INDEX"] None, true);
    (IfTestEq [QuotedParam "ORDINAL_INDEX"] [QuotedLit "0"]
       (RpkConfigSet [Param "CONFIG"] "redpanda.seed_servers" [SingleQuoted "[]"]
          (Some "yaml")), true);
    (RpkConfigSet [Param "CONFIG"] "redpanda.advertised_rpc_api.address"
       [Param "SERVICE_NAME"] None, true);
    (RpkConfigSet [Param "CONFIG"] "redpanda.advertised_rpc_api.port"
       [Lit (Itoa rpcPort)] None, true);
    (RpkConfigSet [Param "CONFIG"] "redpanda.advertised_kafka_api.address"
       [Param "SERVICE_NAME"] None, true);
    (RpkConfigSet [Param "CONFIG"] "redpanda.advertised_kafka_api.port"
       [Lit (Itoa kafkaPort)] None, true);
    (Cat [Param "CONFIG"], false) ].

(** The state of the shell in the init container: its variables and the
    configuration files it can reach. A configuration file is represented by
    the document it holds. *)
Record Shell := {
  vars : gmap string string;
  files : gmap string Config
}.

Fixpoint has_hyphen (s : string) : bool :=
  match s with
  | EmptyString => false
  | String c rest => Ascii.eqb c "-" || has_hyphen rest
  end.

(** [${x##*-}]: what follows the last hyphen; all of [x] when it has none. *)
Fixpoint after_last_hyphen (s : string) : string :=
  match s with
  | EmptyString => EmptyString
  | String c rest =>
      if has_hyphen rest then after_last_hyphen rest
      else if Ascii.eqb c "-" then rest else s
  end.

Definition expand_Part (sh : Shell) (p : Part) : string :=
  match p with
  | Lit s | QuotedLit s | SingleQuoted s => s
  | Param x | ParamBraced x | QuotedParam x => default "" (vars sh !! x)
  | ParamAfterLastHyphen x => after_last_hyphen (default "" (vars sh !! x))
  end.

Fixpoint expand (sh : Shell) (w : Word) : string :=
  match w with
  | [] => ""
  | p :: w' => expand_Part sh p +:+ expand sh w'
  end.

(** The integer a string spells in decimal, if it spells one. *)
Definition parse_int (s : string) : option Z := Z.of_int <$> NilZero.int_of_string s.

Definition set_address (p : option SocketAddress) (address : string) : option SocketAddress :=
  Some {| Address := address; Port := default 0 (Port <$> p) |}.

Definition set_port (p : option SocketAddress) (port : Z) : option SocketAddress :=
  Some {| Address := default "" (Address <$> p); Port := port |}.

(** Modelled from the spec: [rpk config set key value] (package [rpk], not
    under src/), for the keys the script sets. It sets the node's numeric
    identity, clears the seed-server list when given the empty list, and
    overwrites the advertised RPC and streaming-protocol addresses and
    ports; it fails on a value that is not of the key's type. *)
Definition rpk_config_set (key value : string) (format : option string) (c : Config)
  : option Config :=
  let r := Redpanda c in
  if String.eqb key "redpanda.node_id" then
    id ← parse_int value; Some {| Redpanda := set_Id r id |}
  else if String.eqb key "redpanda.seed_servers" then
    if String.eqb value "[]" then Some {| Redpanda := set_SeedServers r [] |} else None
  else if String.eqb key "redpanda.advertised_rpc_api.address" then
    Some {| Redpanda := set_AdvertisedRPCAPI r (set_address (AdvertisedRPCAPI r) value) |}
  else if String.eqb key "redpanda.advertised_rpc_api.port" then
    port ← parse_int value;
    Some {| Redpanda := set_AdvertisedRPCAPI r (set_port (AdvertisedRPCAPI r) port) |}
  else if String.eqb key "redpanda.advertised_kafka_api.address" then
    Some {| Redpanda := set_AdvertisedKafkaApi r (set_address (AdvertisedKafkaApi r) value) |}
  else if String.eqb key "redpanda.advertised_kafka_api.port" then
    port ← parse_int value;
    Some {| Redpanda := set_AdvertisedKafkaApi r (set_port (AdvertisedKafkaApi r) port) |}
  else None.

Definition write_file (sh : Shell) (path : string) (c : Config) : Shell :=
  {| vars := vars sh; files := <[path := c]> (files sh) |}.

(** One command; [None] is a failure, on which [set -e] ends the script. *)
Fixpoint exec_Command (c : Command) (sh : Shell) : option Shell :=
  match c with
  | SetOptions _ => Some sh
  | Assign x w => Some {| vars := <[x := expand sh w]> (vars sh); files := files sh |}
  | Cp src dst =>
      doc ← files sh !! expand sh src;
      Some (write_file sh (expand sh dst) doc)
  | RpkConfigSet config key value format =>
      doc ← files sh !! expand sh config;
      doc' ← rpk_config_set key (expand sh value) format doc;
      Some (write_file sh (expand sh config) doc')
  | IfTestEq lhs rhs body =>
      if String.eqb (expand sh lhs) (expand sh rhs) then exec_Command body sh else Some sh
  | Cat file => _ ← files sh !! expand sh file; Some sh
  end.

Fixpoint exec_Script (s : Script) (sh : Shell) : option Shell :=
  match s with
  | [] => Some sh
  | (c, _) :: s' => sh' ← exec_Command c sh; exec_Script s' sh'
  end.

(** The pod of ordinal [n] of a node set is named after the node set and its
    ordinal, and its hostname is its name. *)
Definition pod_hostname (nodeSet : string) (n : nat) : string :=
  nodeSet +:+ "-" +:+ Itoa (Z.of_nat n).

(** The init container of the pod of ordinal [n]: the shared artifact is
    mounted at [configuratorDir] and holds the document [cfg]. *)
Definition init_container (nodeSet : string) (n : nat) (cfg : Config) : Shell :=
  {| vars := {[ "HOSTNAME" := pod_hostname nodeSet n ]};
     files := {[ configuratorDir +:+ "/redpanda.yaml" := cfg ]} |}.

(** The configuration the engine of the pod of ordinal [n] starts with: the
    file at [configPath] once the script of the cluster has run. *)
Definition patched_config {P : Type} (Default : Config) (cluster : Cluster P) (n : nat)
  : option Config :=
  let cfg := bootstrapConfig Default cluster in
  sh ← exec_Script
         (configurator (serviceAddress cluster)
            (default 0 (Port <$> AdvertisedRPCAPI (Redpanda cfg)))
            (default 0 (Port <$> AdvertisedKafkaApi (Redpanda cfg))))
         (init_container (cl_Name cluster) n cfg);
  files sh !! configPath.

(** Whether the letter [G] occurs in a string. *)
Fixpoint has_G (s : string) : bool :=
  match s with
  | EmptyString => false
  | String c rest => Ascii.eqb c "G" || has_G rest
  end.

(** ** Observations on a trace *)

Definition calls (tr : list Event) : list Call := fst <$> tr.

(** The calls that write to the control plane: create, update and status
    update. *)
Definition is_write (c : Call) : bool :=
  match c with
  | CallCreateService _ | CallCreateConfigMap _ | CallCreateStatefulSet _
  | CallUpdateStatefulSet _ | CallStatusUpdate _ => true
  | _ => false
  end.

Definition is_update (c : Call) : bool :=
  match c with CallUpdateStatefulSet _ => true | _ => false end.

Definition is_status_update (c : Call) : bool :=
  match c with CallStatusUpdate _ => true | _ => false end.

(** The three child resources. *)
Inductive Child := IdentityService | ConfigArtifact | NodeSet.

(** The child a call fetches, with the name it is fetched by. *)
Definition fetched (c : Call) : option (Child * NamespacedName) :=
  match c with
  | CallGetService key => Some (IdentityService, key)
  | CallGetConfigMap key => Some (ConfigArtifact, key)
  | CallGetStatefulSet key => Some (NodeSet, key)
  | _ => None
  end.

Definition name_of (m : ObjectMeta) : NamespacedName :=
  {| nn_Namespace := Namespace m; nn_Name := Name m |}.

(** The child a call creates, with the name it is created under. *)
Definition created (c : Call) : option (Child * NamespacedName) :=
  match c with
  | CallCreateService obj => Some (IdentityService, name_of (svc_ObjectMeta obj))
  | CallCreateConfigMap obj => Some (ConfigArtifact, name_of (cm_ObjectMeta obj))
  | CallCreateStatefulSet obj => Some (NodeSet, name_of (sts_ObjectMeta obj))
  | _ => None
  end.

(** The elements of a slice; the nil slice has none. *)
Definition slice_elems {A} (s : option (list A)) : list A := default [] s.

(** [sts.Status.ReadyReplicas] as the loop reads it at line 195: the count of
    the node set it fetched, and the zero value of the variable when the
    fetch found none. *)
Fixpoint ready_replicas_seen (tr : list Event) : Z :=
  match tr with
  | [] => 0
  | (CallGetStatefulSet _, GotStatefulSet s) :: _ => ReadyReplicas (sts_Status s)
  | _ :: tr' => ready_replicas_seen tr'
  end.

(** ** Sample inputs *)

(** A document of defaults with the engine's well-known ports: 33145 for
    RPC, 9092 for the streaming protocol, 9644 for the admin interface. *)
Definition sample_Default : Config :=
  {| Redpanda :=
       {| Directory := "/var/lib/redpanda/data";
          RPCServer := {| Address := "0.0.0.0"; Port := 33145 |};
          AdvertisedRPCAPI := None;
          KafkaApi := {| Address := "0.0.0.0"; Port := 9092 |};
          AdvertisedKafkaApi := None;
          AdminApi := {| Address := "0.0.0.0"; Port := 9644 |};
          Id := 0; SeedServers := []; DeveloperMode := false |} |}.

(** A marshaller that never fails and prints the listen ports. *)
Definition sample_Marshal (c : Config) : string * option error :=
  ("redpanda:" +:+ NL
   +:+ "  node_id: " +:+ Itoa (Id (Redpanda c)) +:+ NL
   +:+ "  rpc_server: {address: " +:+ Address (RPCServer (Redpanda c))
   +:+ ", port: " +:+ Itoa (Port (RPCServer (Redpanda c))) +:+ "}" +:+ NL
   +:+ "  kafka_api: {address: " +:+ Address (KafkaApi (Redpanda c))
   +:+ ", port: " +:+ Itoa (Port (KafkaApi (Redpanda c))) +:+ "}" +:+ NL
   +:+ "  admin_api: {address: " +:+ Address (AdminApi (Redpanda c))
   +:+ ", port: " +:+ Itoa (Port (AdminApi (Redpanda c))) +:+ "}" +:+ NL,
   None).

Definition sample_gvk : GroupVersionKind :=
  {| gvk_Group := "redpanda.vectorized.io"; gvk_Version := "v1alpha1"; gvk_Kind := "Cluster" |}.

Definition sample_reconciler : ClusterReconciler :=
  {| r_Scheme := {| ClusterKind := Some sample_gvk |} |}.

Definition sample_request : Request :=
  {| req_NamespacedName := {| nn_Namespace := "default"; nn_Name := "cluster-a" |} |}.

Definition sample_labels : gmap string string := {[ "app" := "redpanda" ]}.

(** A desired-state resource for three replicas, with the ports of the
    sample cluster of the repository and the given recorded status. *)
Definition sample_cluster (kafka rpc : Z) (status : ClusterStatus) : Cluster Z :=
  {| cl_ObjectMeta :=
       {| Name := "cluster-a"; Namespace := "default"; UID := "5d2f";
          Labels := sample_labels; OwnerReferences := [] |};
     cl_Spec :=
       {| Image := "vectorized/redpanda"; Version := "latest"; Replicas := Some 3;
          Resources :=
            {| Limits := {[ "memory" := MustParse "2Gi" ]};
               Requests := {[ "storage" := MustParse "500Gi" ]} |};
          Configuration :=
            {| spec_RPCServer := {| spec_Port := rpc |};
               spec_KafkaAPI := {| spec_Port := kafka |};
               spec_AdminAPI := {| spec_Port := 9644 |};
               spec_DeveloperMode := true |} |};
     cl_Status := status |}.

Definition sample_pod (name : string) : Pod :=
  {| pod_ObjectMeta := mkMeta "default" name sample_labels |}.

(** The node set of the sample cluster as the control plane holds it, with
    [replicas] declared and [ready] of them ready. *)
Definition sample_node_set (status : ClusterStatus) (replicas ready : Z) : StatefulSet Z :=
  {| sts_ObjectMeta :=
       sts_ObjectMeta (bootstrapStatefulSet (sample_cluster 9092 33145 status) "cluster-a-base" 1);
     sts_Spec :=
       sts_Spec
         (with_sts_Replicas
            (bootstrapStatefulSet (sample_cluster 9092 33145 status) "cluster-a-base" 1)
            (Some replicas));
     sts_Status := {| ReadyReplicas := ready |} |}.

(** A control plane that holds the sample cluster with the recorded
    [status], its three child resources with [replicas] declared on the node
    set and [ready] of them ready, and the given pods. *)
Definition sample_world (status : ClusterStatus) (replicas ready : Z) (pods : list Pod)
  : ControlPlane :=
  let c := sample_cluster 9092 33145 status in
  {| cp_Clusters := {[ ("default", "cluster-a") := c ]};
     cp_Services := {[ ("default", "cluster-a") := headlessService c ]};
     cp_ConfigMaps :=
       {[ ("default", "cluster-a-base") :=
            bootstrapConfigMap c (fst (sample_Marshal (bootstrapConfig sample_Default c)))
              (script c (bootstrapConfig sample_Default c)) ]};
     cp_StatefulSets := {[ ("default", "cluster-a") := sample_node_set status replicas ready ]};
     cp_Pods := pods |}.

(** The sample cluster, converged: three replicas declared and ready, three
    pods, and a status that records them. *)
Definition converged_status : ClusterStatus :=
  {| status_Replicas := 3;
     status_Nodes := Some ["cluster-a-0"; "cluster-a-1"; "cluster-a-2"] |}.

Definition converged_world : ControlPlane :=
  sample_world converged_status 3 3
    [sample_pod "cluster-a-0"; sample_pod "cluster-a-1"; sample_pod "cluster-a-2"].

(** The sample cluster right after its declaration: no status was ever
    written and no child resource exists. *)
Definition fresh_status : ClusterStatus :=
  {| status_Replicas := 0; status_Nodes := None |}.

Definition fresh_world : ControlPlane :=
  {| cp_Clusters := {[ ("default", "cluster-a") := sample_cluster 9092 33145 fresh_status ]};
     cp_Services := ∅; cp_ConfigMaps := ∅; cp_StatefulSets := ∅; cp_Pods := [] |}.

(** The sample cluster with its child resources in place, before any pod of
    the node set exists and before any status was written. *)
Definition podless_world : ControlPlane := sample_world fresh_status 3 0 [].

Definition sample_key : NamespacedName :=
  {| nn_Namespace := "default"; nn_Name := "cluster-a" |}.

Definition sample_base_key : NamespacedName :=
  {| nn_Namespace := "default"; nn_Name := "cluster-a-base" |}.

Definition sample_list_options : ListOptions :=
  {| lo_LabelSelector := SelectorFromSet sample_labels; lo_Namespace := "default" |}.

(** A control plane without the desired-state resource: it was deleted. *)
Definition empty_world : ControlPlane :=
  {| cp_Clusters := ∅; cp_Services := ∅; cp_ConfigMaps := ∅; cp_StatefulSets := ∅;
     cp_Pods := [] |}.

Definition sample_invoke (w : ControlPlane) (h : addr)
  : (Result * option error) * Machine ControlPlane :=
  invoke sample_Default sample_Marshal sample_reconciler sample_request w h.

(** The memory flag of the main container of the synthesized node set: the
    third of its arguments. *)
Definition memory_flag {P : Type} (s : StatefulSet P) : option string :=
  main ← pod_Containers (tpl_Spec (sts_Template (sts_Spec s))) !! 0%nat;
  ctr_Args main !! 2%nat.

(** ** Outcomes of an invocation *)

Definition Outcome (W : Type) : Type := (Result * option error) * Machine W.

Definition returned_error {W} (out : Outcome W) : option error := snd (fst out).

Definition events {W} (out : Outcome W) : list Event := trace (snd out).

(** [P ev rest] for every event [ev] of a trace, [rest] being the events that
    follow it. *)
Fixpoint each_event (P : Event → list Event → Prop) (tr : list Event) : Prop :=
  match tr with
  | [] => True
  | ev :: rest => P ev rest ∧ each_event P rest
  end.

(** How the loop ends after a write that was answered [resp]: a failed write
    is the last event and its error is returned. *)
Definition aborts_on (err : option error) (resp : Response) (rest : list Event) : Prop :=
  match resp with
  | Failed e => err = Some e ∧ rest = []
  | _ => True
  end.

(** What the replica-count step (lines 159-166) does after the node set was
    fetched, or created, for the desired-state resource [c]: it issues no
    update when both replica pointers are nil, and otherwise one update that
    carries the desired count; a failed update ends the invocation with its
    error. After a create the object of the update is the variable [sts],
    which the fetch left at its zero value. *)
Definition replica_step (c : Cluster Z) (err : option error) (ev : Event)
    (rest : list Event) : Prop :=
  let step (s : StatefulSet Z) : Prop :=
    match sts_Replicas (sts_Spec s), Replicas (cl_Spec c) with
    | None, None =>
        match rest with
        | (call, _) :: _ => is_update call = false
        | [] => False
        end
    | _, desired =>
        ∃ resp rest',
          rest = (CallUpdateStatefulSet (with_sts_Replicas s desired), resp) :: rest'
          ∧ aborts_on err resp rest'
    end in
  match ev with
  | (CallGetStatefulSet _, GotStatefulSet s) => step s
  | (CallCreateStatefulSet obj, Succeeded) =>
      sts_Replicas (sts_Spec obj) = Some 1 ∧ step zero_StatefulSet
  | _ => True
  end.

(** The status writes that follow a listing of [pods], for the desired-state
    resource [c] as it was fetched and the ready-replica count [ready] of the
    node set. The node list is written, as the observed names, when the
    recorded list differs from them as a sequence or is the nil slice, that
    is, when the two are not deeply equal; then, unless that write failed, the
    ready-replica count is written when it differs from the recorded one.
    Each write is a call of its own, a failed one ends the invocation with
    its error, and otherwise the invocation ends without error. *)
Definition status_writes (c : Cluster Z) (ready : Z) (err : option error) (pods : PodList)
    (rest : list Event) : Prop :=
  let observed := Some (pod_names pods) in
  let ready_write (c' : Cluster Z) (rest' : list Event) : Prop :=
    if decide (status_Replicas (cl_Status c) = ready)
    then rest' = [] ∧ err = None
    else ∃ resp,
        rest' = [(CallStatusUpdate (set_status_Replicas c' ready), resp)]
        ∧ err = match resp with Failed e => Some e | _ => None end in
  if decide (slice_elems (status_Nodes (cl_Status c)) = pod_names pods
             ∧ status_Nodes (cl_Status c) ≠ None)
  then ready_write c rest
  else ∃ resp rest',
      rest = (CallStatusUpdate (set_status_Nodes c observed), resp) :: rest'
      ∧ match resp with
        | Failed e => err = Some e ∧ rest' = []
        | _ => ready_write (set_status_Nodes c observed) rest'
        end.

(** The listing of the pods and the status projection of one invocation. *)
Definition status_projected {W} (out : Outcome W) : Prop :=
  match events out with
  | (CallGetCluster _, GotCluster c) :: _ =>
      each_event
        (λ ev rest,
           match ev with
           | (CallListPods opts, GotPods pods) =>
               opts = {| lo_LabelSelector := SelectorFromSet (cl_Labels c);
                         lo_Namespace := cl_Namespace c |}
               ∧ status_writes c (ready_replicas_seen (events out)) (returned_error out)
                   pods rest
           | _ => True
           end)
        (events out)
  | _ => True
  end.

(** The controller reference [SetControllerReference] adds for the owner. *)
Definition controller_ref {P : Type} (owner : Cluster P) (gvk : GroupVersionKind)
  : OwnerReference :=
  {| ref_APIVersion := gvk_Group gvk +:+ "/" +:+ gvk_Version gvk;
     ref_Kind := gvk_Kind gvk;
     ref_Name := cl_Name owner;
     ref_UID := UID (cl_ObjectMeta owner);
     ref_Controller := Some true;
     ref_BlockOwnerDeletion := Some true |}.

(** The three children of the desired-state resource [c], in the order the
    loop handles them, each with the name it is derived under: the identity
    service and the node set bear the name of the cluster, the configuration
    artifact that name with the suffix [-base], all in the namespace of the
    cluster. *)
Definition children (c : Cluster Z) : list (Child * NamespacedName) :=
  let name := Name (cl_ObjectMeta c) in
  let namespace := Namespace (cl_ObjectMeta c) in
  [ (IdentityService, {| nn_Namespace := namespace; nn_Name := name |});
    (ConfigArtifact, {| nn_Namespace := namespace; nn_Name := name +:+ "-base" |});
    (NodeSet, {| nn_Namespace := namespace; nn_Name := name |}) ].

(** The create of a child as its synthesizer issues it for the cluster [c]:
    the synthesized object, with the controller reference of the cluster for
    the kind [gvk]. *)
Definition synthesized (Default : Config) (Marshal : Config → string * option error)
    (gvk : GroupVersionKind) (c : Cluster Z) (child : Child) : Call :=
  match child with
  | IdentityService =>
      CallCreateService
        {| svc_ObjectMeta :=
             with_owners (svc_ObjectMeta (headlessService c)) [controller_ref c gvk];
           svc_Spec := svc_Spec (headlessService c) |}
  | ConfigArtifact =>
      let cfg := bootstrapConfig Default c in
      let cm := bootstrapConfigMap c (fst (Marshal cfg)) (script c cfg) in
      CallCreateConfigMap
        {| cm_ObjectMeta := with_owners (cm_ObjectMeta cm) [controller_ref c gvk];
           cm_Data := cm_Data cm |}
  | NodeSet =>
      CallCreateStatefulSet
        (with_sts_owners (bootstrapStatefulSet c (cl_Name c +:+ baseSuffix) 1)
           [controller_ref c gvk])
  end.

(** How an invocation ends in the steps that follow the three children: it
    makes at least one more call, none of which fetches or creates a child,
    and it returns the error of the last call when that failed, and no error
    otherwise. *)
Definition closing_steps (err : option error) (tr : list Event) : Prop :=
  Forall (λ ev, fetched (fst ev) = None ∧ created (fst ev) = None) tr
  ∧ tr ≠ []
  ∧ err = match last tr with Some (_, Failed e) => Some e | _ => None end.

(** The part of a trace that handles the children [todo], one after the
    other, up to the end of the invocation, which returns [err]. Each child
    is fetched by its derived name. A fetch that finds the child is followed
    by the next child. A not-found fetch is followed by the create [synth]
    issues for that child, under that name; a failed create is the last event
    and its error is returned, a successful one is followed by the next
    child, so that the not-found is not what the invocation returns. A fetch
    that fails otherwise is the last event and its error is returned. After
    the last child come the closing steps. *)
Fixpoint child_steps (synth : Child → Call) (err : option error)
    (todo : list (Child * NamespacedName)) (tr : list Event) : Prop :=
  match todo with
  | [] => closing_steps err tr
  | (child, key) :: todo' =>
      match tr with
      | (call, resp) :: rest =>
          fetched call = Some (child, key)
          ∧ match resp with
            | Failed e =>
                if IsNotFound (Some e)
                then match rest with
                     | (call', resp') :: rest' =>
                         call' = synth child
                         ∧ created call' = Some (child, key)
                         ∧ match resp' with
                           | Failed e' => err = Some e' ∧ rest' = []
                           | _ => child_steps synth err todo' rest'
                           end
                     | [] => False
                     end
                else err = Some e ∧ rest = []
            | _ => child_steps synth err todo' rest
            end
      | [] => False
      end
  end.

(** ** Further observations *)

(** The four reads by name. *)
Definition is_get (c : Call) : bool :=
  match c with
  | CallGetCluster _ | CallGetService _ | CallGetConfigMap _ | CallGetStatefulSet _ => true
  | _ => false
  end.

(** A failed answer is either a not-found answer to a read by name, or the
    last event of the invocation, whose error the invocation returns. *)
Definition error_propagated (err : option error) (ev : Event) (rest : list Event) : Prop :=
  match ev with
  | (call, Failed e) =>
      if is_get call && IsNotFound (Some e) then True else rest = [] ∧ err = Some e
  | _ => True
  end.

(** Where a returned error comes from: the failed answer to the last call,
    or a synthesizer that failed before its create, right after the
    not-found answer to the fetch of its child. *)
Definition error_source (err : option error) (tr : list Event) : Prop :=
  match err with
  | None => True
  | Some e =>
      match last tr with
      | Some (call, Failed e') =>
          e' = e ∨ (is_Some (fetched call) ∧ IsNotFound (Some e') = true)
      | _ => False
      end
  end.

(** A create is the call right after the fetch of the same child under the
    same name, and that fetch was answered not-found. *)
Definition create_justified (ev : Event) (rest : list Event) : Prop :=
  match rest with
  | (call', _) :: _ =>
      match created call' with
      | Some ck =>
          fetched (fst ev) = Some ck
          ∧ ∃ e, snd ev = Failed e ∧ IsNotFound (Some e) = true
      | None => True
      end
  | [] => True
  end.

(** The metadata of the object a call creates. *)
Definition created_meta (c : Call) : option ObjectMeta :=
  match c with
  | CallCreateService obj => Some (svc_ObjectMeta obj)
  | CallCreateConfigMap obj => Some (cm_ObjectMeta obj)
  | CallCreateStatefulSet obj => Some (sts_ObjectMeta obj)
  | _ => None
  end.

(** An object that the cluster [c] controls: it lives in the namespace of
    the cluster, carries its labels, and its only owner reference names the
    cluster as its controller and blocks the cluster's deletion. *)
Definition controlled_by (c : Cluster Z) (m : ObjectMeta) : Prop :=
  Namespace m = cl_Namespace c
  ∧ Labels m = cl_Labels c
  ∧ ∃ ref, OwnerReferences m = [ref]
      ∧ ref_Controller ref = Some true
      ∧ ref_BlockOwnerDeletion ref = Some true
      ∧ ref_Name ref = cl_Name c
      ∧ ref_UID ref = UID (cl_ObjectMeta c).

Definition create_controlled (c : Cluster Z) (ev : Event) (rest : list Event) : Prop :=
  match created_meta (fst ev) with
  | Some m => controlled_by c m
  | None => True
  end.

(** The place of a call in the sequence of the loop. *)
Definition phase (c : Call) : nat :=
  match c with
  | CallGetCluster _ => 0
  | CallGetService _ => 1
  | CallCreateService _ => 2
  | CallGetConfigMap _ => 3
  | CallCreateConfigMap _ => 4
  | CallGetStatefulSet _ => 5
  | CallCreateStatefulSet _ => 6
  | CallUpdateStatefulSet _ => 7
  | CallListPods _ => 8
  | CallStatusUpdate _ => 9
  end.

(** The next call belongs to a later phase; only a status update can be
    followed by a call of its own phase, a second status update, which is
    then the last call. *)
Definition in_order (ev : Event) (rest : list Event) : Prop :=
  match rest with
  | (call', _) :: rest' =>
      (phase (fst ev) < phase call')%nat
      ∨ (is_status_update (fst ev) = true ∧ is_status_update call' = true ∧ rest' = [])
  | [] => True
  end.

(** The properties of one invocation for the desired-state resource [c] that
    hold of every event of its trace. *)
Definition well_behaved (c : Cluster Z) (err : option error) (ev : Event)
    (rest : list Event) : Prop :=
  error_propagated err ev rest
  ∧ create_justified ev rest
  ∧ create_controlled c ev rest
  ∧ in_order ev rest.

(** Whether [old] occurs in [s]. *)
Fixpoint has_substring (old s : string) : bool :=
  match s with
  | EmptyString => String.prefix old EmptyString
  | String _ rest => String.prefix old s || has_substring old rest
  end.

(** The path a container mounts a volume at. *)
Definition mount_path (ctr : Container) (volume : string) : option string :=
  vm_MountPath <$> List.find (λ m, String.eqb (vm_Name m) volume) (ctr_VolumeMounts ctr).

(** The source of a volume of a pod. *)
Definition volume_source (pod : PodSpec) (volume : string) : option VolumeSource :=
  vol_VolumeSource <$> List.find (λ v, String.eqb (vol_Name v) volume) (pod_Volumes pod).




(** A scheme in which the kind of the cluster was never registered. *)
Definition empty_scheme : Scheme := {| ClusterKind := None |}.

(** A marshaller that fails. *)
Definition failing_Marshal (c : Config) : string * option error :=
  ("", Some (PlainError "cannot marshal")).

(** * Properties *)

(** ** Strings *)

Lemma append_String c s t : String c s +:+ t = String c (s +:+ t).
Proof. reflexivity. Qed.

Lemma append_empty_l t : "" +:+ t = t.
Proof. reflexivity. Qed.

Lemma append_empty_r (a : string) : a +:+ "" = a.
Proof.
  induction a as [|x a IH]; [reflexivity|].
  rewrite append_String. by rewrite IH.
Qed.

Lemma append_assoc (a b c : string) : (a +:+ b) +:+ c = a +:+ (b +:+ c).
Proof.
  induction a as [|x a IH]; [reflexivity|].
  rewrite !append_String. by rewrite IH.
Qed.

Lemma has_hyphen_digits d : has_hyphen (NilEmpty.string_of_uint d) = false.
Proof. induction d; cbn; auto. Qed.

Lemma has_hyphen_Itoa (n : nat) : has_hyphen (Itoa (Z.of_nat n)) = false.
Proof.
  unfold Itoa. destruct (Z.of_nat n) eqn:E; [reflexivity| |lia].
  cbn. unfold NilZero.string_of_uint.
  destruct (Pos.to_uint p); try reflexivity; apply (has_hyphen_digits (_ _)).
Qed.

Lemma has_hyphen_app p d : has_hyphen (p +:+ "-" +:+ d) = true.
Proof.
  induction p as [|c p IH].
  - by rewrite append_empty_l, append_String.
  - rewrite append_String. cbn. rewrite IH. apply orb_true_r.
Qed.

(** What follows the last hyphen of [p-d], when [d] has no hyphen, is [d]. *)
Lemma after_last_hyphen_app p d :
  has_hyphen d = false → after_last_hyphen (p +:+ "-" +:+ d) = d.
Proof.
  intros Hd. induction p as [|c p IH].
  - rewrite append_empty_l, append_String, append_empty_l. cbn. by rewrite Hd.
  - rewrite append_String. cbn [after_last_hyphen]. by rewrite has_hyphen_app.
Qed.

Lemma parse_int_Itoa z : parse_int (Itoa z) = Some z.
Proof.
  unfold parse_int, Itoa. rewrite NilZero.isi.
  - cbn. by rewrite of_to.
  - destruct z; cbn; try discriminate.
    intros [= H]. by apply Unsigned.to_uint_nonnil in H.
  - destruct z; cbn; try discriminate.
    intros [= H]. by apply Unsigned.to_uint_nonnil in H.
Qed.

Lemma Itoa_inj x y : Itoa x = Itoa y → x = y.
Proof.
  intros H. pose proof (parse_int_Itoa x) as Hx. rewrite H, parse_int_Itoa in Hx.
  congruence.
Qed.

Lemma Itoa_zero (n : nat) : Itoa (Z.of_nat n) = "0" ↔ n = 0%nat.
Proof.
  split; [|by intros ->].
  intros H. apply (Itoa_inj _ 0) in H. lia.
Qed.

Lemma ordinal_of_hostname nodeSet n :
  after_last_hyphen (pod_hostname nodeSet n) = Itoa (Z.of_nat n).
Proof. apply after_last_hyphen_app, has_hyphen_Itoa. Qed.

(** [ReplaceAll] on a quantity in gibibytes: digits followed by ["Gi"]. *)
Lemma ReplaceAll_Gi_suffix d :
  has_G d = false → ReplaceAll (d +:+ "Gi") "Gi" "G" = d +:+ "G".
Proof.
  unfold ReplaceAll. induction d as [|c d IH]; [reflexivity|].
  cbn [has_G]. intros [Hc Hd]%orb_false_elim.
  rewrite !append_String. cbn [replace_from String.prefix].
  destruct (ascii_dec "G" c) as [<-|_]; [done|].
  by rewrite IH.
Qed.

Example ReplaceAll_2Gi : ReplaceAll "2Gi" "Gi" "G" = "2G".
Proof. reflexivity. Qed.

Example ReplaceAll_leftmost : ReplaceAll "GiGGii" "Gi" "G" = "GGGi".
Proof. reflexivity. Qed.

Example ReplaceAll_untouched : ReplaceAll "512Mi" "Gi" "G" = "512Mi".
Proof. reflexivity. Qed.

(** ** The startup script *)

(** The program [configurator] is the text the controller stores in the
    artifact. *)
Lemma render_configurator a p q :
  render_Script (configurator a p q) = script_text a p q.
Proof.
  unfold configurator, script_text. cbn [render_Script]. unfold render_item.
  cbn [render_Command render_Word render_Part fst snd].
  unfold NL3, NL2, NL, TAB, DQ, configPath, filepath_Join, configDir.
  repeat (progress rewrite ?append_assoc, ?append_String, ?append_empty_l, ?append_empty_r).
  reflexivity.
Qed.

Lemma rpk_set_node_id v fmt c id :
  parse_int v = Some id →
  rpk_config_set "redpanda.node_id" v fmt c = Some {| Redpanda := set_Id (Redpanda c) id |}.
Proof.
  intros H. unfold rpk_config_set. cbn [String.eqb Ascii.eqb Bool.eqb]. cbv iota.
  by rewrite H.
Qed.

Lemma rpk_set_seed_servers fmt c :
  rpk_config_set "redpanda.seed_servers" "[]" fmt c
  = Some {| Redpanda := set_SeedServers (Redpanda c) [] |}.
Proof. reflexivity. Qed.

Lemma rpk_set_rpc_port p fmt c :
  rpk_config_set "redpanda.advertised_rpc_api.port" (Itoa p) fmt c
  = Some {| Redpanda :=
              set_AdvertisedRPCAPI (Redpanda c) (set_port (AdvertisedRPCAPI (Redpanda c)) p) |}.
Proof.
  unfold rpk_config_set. cbn [String.eqb Ascii.eqb Bool.eqb]. cbv iota.
  by rewrite parse_int_Itoa.
Qed.

Lemma rpk_set_kafka_port p fmt c :
  rpk_config_set "redpanda.advertised_kafka_api.port" (Itoa p) fmt c
  = Some {| Redpanda :=
              set_AdvertisedKafkaApi (Redpanda c)
                (set_port (AdvertisedKafkaApi (Redpanda c)) p) |}.
Proof.
  unfold rpk_config_set. cbn [String.eqb Ascii.eqb Bool.eqb]. cbv iota.
  by rewrite parse_int_Itoa.
Qed.

Ltac script_step :=
  rewrite ?append_empty_r, ?rpk_set_rpc_port, ?rpk_set_kafka_port, ?rpk_set_seed_servers;
  simplify_map_eq.

(** The document the script leaves at [configPath], for a hostname whose
    part after the last hyphen spells the number [id]. *)
Lemma exec_configurator host a rpc kafka cfg id :
  parse_int (after_last_hyphen host) = Some id →
  (sh ← exec_Script (configurator a rpc kafka)
          {| vars := {[ "HOSTNAME" := host ]};
             files := {[ configuratorDir +:+ "/redpanda.yaml" := cfg ]} |};
   files sh !! configPath) =
  Some {| Redpanda :=
     let r := set_Id (Redpanda cfg) id in
     let r := if String.eqb (after_last_hyphen host) "0" then set_SeedServers r [] else r in
     let r := set_AdvertisedRPCAPI r (set_address (AdvertisedRPCAPI r) (host +:+ "." +:+ a)) in
     let r := set_AdvertisedRPCAPI r (set_port (AdvertisedRPCAPI r) rpc) in
     let r := set_AdvertisedKafkaApi r (set_address (AdvertisedKafkaApi r) (host +:+ "." +:+ a)) in
     set_AdvertisedKafkaApi r (set_port (AdvertisedKafkaApi r) kafka) |}.
Proof.
  intros Hid. unfold configurator.
  cbn [exec_Script exec_Command expand expand_Part].
  script_step. rewrite ?append_empty_r.
  rewrite (rpk_set_node_id _ _ _ _ Hid). cbn [mbind option_bind].
  unfold write_file. cbn [vars files].
  script_step. rewrite ?append_empty_r.
  change ("0" +:+ "") with "0".
  destruct (String.eqb (after_last_hyphen host) "0") eqn:E;
    repeat (progress script_step); rewrite ?append_empty_r; reflexivity.
Qed.

(** ** The synthesizers *)

(** C6, as amended. Each of the RPC, kafka and admin ports of the generated
    base configuration is the port of the cluster spec, or, when that is
    zero, the default of the same role, independently of the other two
    ports. In particular a spec with the kafka port unset yields the kafka
    default whatever its RPC port is, so the kafka listen port is zero or
    9092 exactly when the default is. *)
Theorem port_fallback {P : Type} (Default : Config) (cluster : Cluster P) :
  let conf := Configuration (cl_Spec cluster) in
  let cfg := Redpanda (bootstrapConfig Default cluster) in
  Port (RPCServer cfg) =
    (if Z.eqb (spec_Port (spec_RPCServer conf)) 0
     then Port (RPCServer (Redpanda Default)) else spec_Port (spec_RPCServer conf))
  ∧ Port (KafkaApi cfg) =
    (if Z.eqb (spec_Port (spec_KafkaAPI conf)) 0
     then Port (KafkaApi (Redpanda Default)) else spec_Port (spec_KafkaAPI conf))
  ∧ Port (AdminApi cfg) =
    (if Z.eqb (spec_Port (spec_AdminAPI conf)) 0
     then Port (AdminApi (Redpanda Default)) else spec_Port (spec_AdminAPI conf))
  ∧ (spec_Port (spec_KafkaAPI conf) = 0 →
     Port (KafkaApi cfg) = Port (KafkaApi (Redpanda Default))
     ∧ (Port (KafkaApi cfg) = 0 ↔ Port (KafkaApi (Redpanda Default)) = 0)
     ∧ (Port (KafkaApi cfg) = 9092 ↔ Port (KafkaApi (Redpanda Default)) = 9092)).
Proof.
  cbn. repeat split; try reflexivity;
    match goal with H : _ = 0 |- _ => rewrite H in *; cbn in * end; auto.
Qed.

Lemma port_fallback_witness :
  let cluster := sample_cluster 0 9092 fresh_status in
  Port (KafkaApi (Redpanda (bootstrapConfig sample_Default cluster)))
  = Port (KafkaApi (Redpanda sample_Default)).
Proof.
  intros cluster.
  exact (proj1 (proj2 (proj2 (proj2 (port_fallback sample_Default cluster))) eq_refl)).
Defined.

(** C6 as stated fails: the spec of the claim, kafka port unset and RPC port
    9092, with a kafka default of 9092, yields the kafka listen port 9092. *)
Lemma port_fallback_kafka_default_9092 :
  let cluster := sample_cluster 0 9092 fresh_status in
  let cfg := Redpanda (bootstrapConfig sample_Default cluster) in
  spec_Port (spec_KafkaAPI (Configuration (cl_Spec cluster))) = 0
  ∧ spec_Port (spec_RPCServer (Configuration (cl_Spec cluster))) = 9092
  ∧ ¬ (Port (KafkaApi cfg) = Port (KafkaApi (Redpanda sample_Default))
       ∧ Port (KafkaApi cfg) ≠ 0 ∧ Port (KafkaApi cfg) ≠ 9092).
Proof.
  cbn. split; [reflexivity|]. split; [reflexivity|]. intros (_ & _ & H). by apply H.
Qed.

(** C7. The artifact the controller creates for a cluster stores, under
    [configurator.sh], the text of the program [configurator] for the
    service domain [<name>.<namespace>.svc.cluster.local] and the listen
    ports of the generated configuration. That configuration has the single
    seed server [<name>-0.<name>.<namespace>.svc.cluster.local] at the RPC
    port (the port of the spec, or the default when that is zero). Run in the
    pod of ordinal [n] of the node set, on the generated configuration, the
    program succeeds and leaves a configuration whose node identity is [n]
    and whose seed-server list is empty for [n = 0] and, for every other
    [n], that single-entry list. *)
Theorem ordinal_zero_bootstrap {P : Type} (Default : Config) (cluster : Cluster P)
    (cfgBytes : string) (n : nat) :
  let name := Name (cl_ObjectMeta cluster) in
  let namespace := Namespace (cl_ObjectMeta cluster) in
  let conf := Configuration (cl_Spec cluster) in
  let rpcPort :=
    if Z.eqb (spec_Port (spec_RPCServer conf)) 0
    then Port (RPCServer (Redpanda Default)) else spec_Port (spec_RPCServer conf) in
  let kafkaPort :=
    if Z.eqb (spec_Port (spec_KafkaAPI conf)) 0
    then Port (KafkaApi (Redpanda Default)) else spec_Port (spec_KafkaAPI conf) in
  let seeds :=
    [ {| Host :=
           {| Address :=
                name +:+ "-0." +:+ name +:+ "." +:+ namespace +:+ ".svc.cluster.local";
              Port := rpcPort |} |} ] in
  let program :=
    configurator (name +:+ "." +:+ namespace +:+ ".svc.cluster.local") rpcPort kafkaPort in
  let cfg := bootstrapConfig Default cluster in
  let artifact := bootstrapConfigMap cluster cfgBytes (script cluster cfg) in
  cm_Data artifact !! "configurator.sh" = Some (render_Script program)
  ∧ cm_Data artifact !! "redpanda.yaml" = Some cfgBytes
  ∧ SeedServers (Redpanda cfg) = seeds
  ∧ ∃ (sh : Shell) (patched : Config),
      exec_Script program (init_container name n cfg) = Some sh
      ∧ files sh !! configPath = Some patched
      ∧ Id (Redpanda patched) = Z.of_nat n
      ∧ SeedServers (Redpanda patched) = (if decide (n = 0%nat) then [] else seeds).
Proof.
  intros name namespace conf rpcPort kafkaPort seeds program cfg artifact.
  assert (Hports : default 0 (Port <$> AdvertisedRPCAPI (Redpanda cfg)) = rpcPort
                   ∧ default 0 (Port <$> AdvertisedKafkaApi (Redpanda cfg)) = kafkaPort).
  { subst cfg rpcPort kafkaPort conf. cbn.
    destruct (Z.eqb (spec_Port (spec_RPCServer (Configuration (cl_Spec cluster)))) 0);
      destruct (Z.eqb (spec_Port (spec_KafkaAPI (Configuration (cl_Spec cluster)))) 0);
      done. }
  destruct Hports as [Hrpc Hkafka].
  split.
  { subst artifact. unfold bootstrapConfigMap. cbn [cm_Data].
    rewrite lookup_insert_ne by done. rewrite lookup_insert_eq.
    unfold script. rewrite Hrpc, Hkafka, <- render_configurator. reflexivity. }
  split.
  { subst artifact. unfold bootstrapConfigMap. cbn [cm_Data]. by rewrite lookup_insert_eq. }
  assert (Hseeds : SeedServers (Redpanda cfg) = seeds).
  { subst seeds. rewrite <- Hrpc. reflexivity. }
  split; [exact Hseeds|].
  pose proof (exec_configurator (pod_hostname name n)
                (name +:+ "." +:+ namespace +:+ ".svc.cluster.local") rpcPort kafkaPort cfg
                (Z.of_nat n)) as Hrun.
  rewrite ordinal_of_hostname, parse_int_Itoa in Hrun.
  specialize (Hrun eq_refl).
  fold program in Hrun. unfold init_container.
  destruct (exec_Script program _) as [sh|] eqn:Hsh; [|discriminate].
  cbn [mbind option_bind] in Hrun.
  exists sh. eexists. split; [reflexivity|]. split; [exact Hrun|].
  rewrite <- Hseeds.
  destruct (String.eqb (Itoa (Z.of_nat n)) "0") eqn:E.
  - apply String.eqb_eq, Itoa_zero in E. subst n. by cbn.
  - destruct (decide (n = 0%nat)) as [->|Hn]; [by cbn in E|]. by cbn.
Qed.

(** C9. The one volume claim of the synthesized node set requests exactly
    100Gi of storage and sets no limit, whatever the cluster spec declares:
    two clusters that differ in anything but namespace and labels get the
    same claim. *)
Theorem claim_requests_100Gi {P : Type} (cluster : Cluster P) (configMapName : string)
    (replicas : P) :
  ∃ claim : PersistentVolumeClaim,
    sts_VolumeClaimTemplates (sts_Spec (bootstrapStatefulSet cluster configMapName replicas))
    = [claim]
    ∧ Requests (pvc_Resources (pvc_Spec claim)) = {[ "storage" := MustParse "100Gi" ]}
    ∧ Quantity_String <$> (Requests (pvc_Resources (pvc_Spec claim)) !! "storage")
      = Some "100Gi"
    ∧ Limits (pvc_Resources (pvc_Spec claim)) = ∅
    ∧ ∀ (other : Cluster P) (name : string) (count : P),
        cl_Namespace other = cl_Namespace cluster →
        cl_Labels other = cl_Labels cluster →
        sts_VolumeClaimTemplates (sts_Spec (bootstrapStatefulSet other name count))
        = [claim].
Proof.
  eexists. split; [reflexivity|]. cbn [pvc_Spec pvc_Resources Requests Limits].
  split; [reflexivity|]. split; [done|]. split; [reflexivity|].
  intros other name count Hns Hl.
  cbn [bootstrapStatefulSet sts_Spec sts_VolumeClaimTemplates]. by rewrite Hns, Hl.
Qed.

Lemma claim_requests_100Gi_witness :
  sts_VolumeClaimTemplates
    (sts_Spec (bootstrapStatefulSet (sample_cluster 9092 33145 converged_status) "other" 7))
  = sts_VolumeClaimTemplates
      (sts_Spec (bootstrapStatefulSet (sample_cluster 0 0 fresh_status) "cluster-a-base" 1)).
Proof.
  destruct (claim_requests_100Gi (sample_cluster 0 0 fresh_status) "cluster-a-base" 1)
    as (claim & Hc & _ & _ & _ & Hother).
  rewrite Hc. apply Hother; reflexivity.
Defined.

(** C10. The memory flag of the main container is ["--memory "] followed by
    the string form of the memory limit with every ["Gi"] replaced by ["G"];
    the memory limit is the ["memory"] entry of the spec's limits and, when
    there is none, 2Gi, for which the flag is ["--memory 2G"]. *)
Theorem memory_flag_derivation {P : Type} (cluster : Cluster P) (configMapName : string)
    (replicas : P) :
  let limits := Limits (Resources (cl_Spec cluster)) in
  let flag := memory_flag (bootstrapStatefulSet cluster configMapName replicas) in
  flag = Some ("--memory " +:+ ReplaceAll (Quantity_String (memoryLimit cluster)) "Gi" "G")
  ∧ (∀ q, limits !! "memory" = Some q → memoryLimit cluster = q)
  ∧ (limits !! "memory" = None →
     memoryLimit cluster = MustParse "2Gi" ∧ flag = Some "--memory 2G")
  ∧ (Quantity_String (memoryLimit cluster) = "2Gi" → flag = Some "--memory 2G")
  ∧ (∀ d, has_G d = false → Quantity_String (memoryLimit cluster) = d +:+ "Gi" →
     flag = Some ("--memory " +:+ d +:+ "G")).
Proof.
  cbn zeta. unfold memory_flag. cbn [bootstrapStatefulSet sts_Spec sts_Template tpl_Spec
    pod_Containers lookup list_lookup mbind option_bind ctr_Args].
  split; [reflexivity|]. unfold memoryLimit.
  split; [by intros q ->|].
  split; [by intros ->|].
  split; [by intros ->|].
  intros d Hd ->. by rewrite ReplaceAll_Gi_suffix.
Qed.

Lemma memory_flag_derivation_witness :
  memory_flag (bootstrapStatefulSet (sample_cluster 9092 33145 fresh_status) "cluster-a-base" 1)
  = Some "--memory 2G"
  ∧ memory_flag (bootstrapStatefulSet (@zero_Cluster Z) "-base" 1) = Some "--memory 2G".
Proof.
  split.
  - exact (proj1 (proj2 (proj2 (proj2
      (memory_flag_derivation (sample_cluster 9092 33145 fresh_status) "cluster-a-base" 1))))
      eq_refl).
  - exact (proj2 (proj1 (proj2 (proj2
      (memory_flag_derivation (@zero_Cluster Z) "-base" 1))) eq_refl)).
Defined.

(** ** The generated configuration, once more *)

(** Whatever the defaults, the generated base configuration has node
    identity 0, the fixed data directory, the developer-mode flag of the
    spec, the listen address 0.0.0.0 on its three listeners, and advertised
    addresses that are still empty and carry the ports of the kafka and RPC
    listeners. Of the defaults only the three ports can reach it: two
    documents of defaults with the same ports give the same configuration. *)
Theorem bootstrap_config_fields {P : Type} (Default : Config) (cluster : Cluster P) :
  let r := Redpanda (bootstrapConfig Default cluster) in
  Id r = 0
  ∧ Directory r = dataDirectory
  ∧ DeveloperMode r = spec_DeveloperMode (Configuration (cl_Spec cluster))
  ∧ Address (RPCServer r) = "0.0.0.0"
  ∧ Address (KafkaApi r) = "0.0.0.0"
  ∧ Address (AdminApi r) = "0.0.0.0"
  ∧ AdvertisedRPCAPI r = Some {| Address := ""; Port := Port (RPCServer r) |}
  ∧ AdvertisedKafkaApi r = Some {| Address := ""; Port := Port (KafkaApi r) |}
  ∧ ∀ Default' : Config,
      Port (RPCServer (Redpanda Default')) = Port (RPCServer (Redpanda Default)) →
      Port (KafkaApi (Redpanda Default')) = Port (KafkaApi (Redpanda Default)) →
      Port (AdminApi (Redpanda Default')) = Port (AdminApi (Redpanda Default)) →
      bootstrapConfig Default' cluster = bootstrapConfig Default cluster.
Proof.
  cbn. repeat split.
  intros Default' H1 H2 H3. unfold bootstrapConfig, copyConfig. cbn.
  by rewrite H1, H2, H3.
Qed.

Lemma bootstrap_config_fields_witness :
  bootstrapConfig
    {| Redpanda := set_Directory (set_Id (Redpanda sample_Default) 7) "/tmp" |}
    (sample_cluster 0 0 fresh_status)
  = bootstrapConfig sample_Default (sample_cluster 0 0 fresh_status).
Proof.
  apply (bootstrap_config_fields sample_Default (sample_cluster 0 0 fresh_status));
    reflexivity.
Defined.

(** ** The startup script in the pod *)

Lemma has_hyphen_after_last s : has_hyphen (after_last_hyphen s) = false.
Proof.
  induction s as [|c s IH]; [reflexivity|].
  cbn [after_last_hyphen]. destruct (has_hyphen s) eqn:Hs; [exact IH|].
  destruct (Ascii.eqb c "-") eqn:Hc; [exact Hs|].
  cbn. by rewrite Hc, Hs.
Qed.

(** The expansion [${HOSTNAME##*-}] of line 270: its result has no hyphen; a
    name without a hyphen is left whole; and of the hostname of the pod of
    ordinal [n] it keeps the decimal digits of [n], also when the name of
    the node set has hyphens of its own. *)
Theorem ordinal_index_of_hostname :
  (∀ s, has_hyphen (after_last_hyphen s) = false)
  ∧ (∀ s, has_hyphen s = false → after_last_hyphen s = s)
  ∧ (∀ nodeSet n,
       after_last_hyphen (pod_hostname nodeSet n) = Itoa (Z.of_nat n)
       ∧ parse_int (after_last_hyphen (pod_hostname nodeSet n)) = Some (Z.of_nat n)).
Proof.
  split; [exact has_hyphen_after_last|]. split.
  - intros s. destruct s as [|c s]; [done|]. cbn.
    destruct (Ascii.eqb c "-"); cbn; [done|]. by intros ->.
  - intros nodeSet n. rewrite ordinal_of_hostname. split; [done|apply parse_int_Itoa].
Qed.

Lemma ordinal_index_of_hostname_witness : after_last_hyphen "redpanda" = "redpanda".
Proof. exact (proj1 (proj2 ordinal_index_of_hostname) "redpanda" eq_refl). Defined.

(** The document [patched_config] yields, written out. *)
Lemma patched_config_value {P : Type} (Default : Config) (cluster : Cluster P) (n : nat) :
  let cfg := bootstrapConfig Default cluster in
  let host := pod_hostname (cl_Name cluster) n in
  let a := serviceAddress cluster in
  patched_config Default cluster n =
  Some {| Redpanda :=
     let r := set_Id (Redpanda cfg) (Z.of_nat n) in
     let r := if String.eqb (Itoa (Z.of_nat n)) "0" then set_SeedServers r [] else r in
     let r := set_AdvertisedRPCAPI r (set_address (AdvertisedRPCAPI r) (host +:+ "." +:+ a)) in
     let r := set_AdvertisedRPCAPI r
                (set_port (AdvertisedRPCAPI r)
                   (default 0 (Port <$> AdvertisedRPCAPI (Redpanda cfg)))) in
     let r := set_AdvertisedKafkaApi r
                (set_address (AdvertisedKafkaApi r) (host +:+ "." +:+ a)) in
     set_AdvertisedKafkaApi r
       (set_port (AdvertisedKafkaApi r)
          (default 0 (Port <$> AdvertisedKafkaApi (Redpanda cfg)))) |}.
Proof.
  cbn zeta. unfold patched_config, init_container.
  rewrite (exec_configurator _ _ _ _ _ (Z.of_nat n));
    [|by rewrite ordinal_of_hostname, parse_int_Itoa].
  by rewrite ordinal_of_hostname.
Qed.

(** The configuration the script leaves in the pod of ordinal [n]: both
    advertised addresses are the pod's own name under the service's domain,
    [<name>-<n>.<name>.<namespace>.svc.cluster.local], with the ports of the
    RPC and kafka listeners; the listeners, the data directory and the
    developer-mode flag are those of the generated configuration. *)
Theorem advertised_addresses_patched {P : Type} (Default : Config) (cluster : Cluster P)
    (n : nat) :
  ∃ cfg : Config,
    patched_config Default cluster n = Some cfg
    ∧ let r0 := Redpanda (bootstrapConfig Default cluster) in
      let r := Redpanda cfg in
      let name := Name (cl_ObjectMeta cluster) in
      let fqdn :=
        name +:+ "-" +:+ Itoa (Z.of_nat n) +:+ "." +:+ name +:+ "."
        +:+ Namespace (cl_ObjectMeta cluster) +:+ ".svc.cluster.local" in
      AdvertisedRPCAPI r = Some {| Address := fqdn; Port := Port (RPCServer r0) |}
      ∧ AdvertisedKafkaApi r = Some {| Address := fqdn; Port := Port (KafkaApi r0) |}
      ∧ RPCServer r = RPCServer r0
      ∧ KafkaApi r = KafkaApi r0
      ∧ AdminApi r = AdminApi r0
      ∧ Directory r = Directory r0
      ∧ DeveloperMode r = DeveloperMode r0.
Proof.
  eexists. split; [apply patched_config_value|].
  unfold pod_hostname, serviceAddress, cl_Name, cl_Namespace.
  destruct (String.eqb _ "0"); cbn; rewrite !append_assoc; repeat split.
Qed.

(** The seed server every pod but the first starts with is the RPC address
    the pod of ordinal 0 advertises once its script has run. *)
Theorem seed_server_is_first_pod {P : Type} (Default : Config) (cluster : Cluster P) :
  ∃ cfg : Config,
    patched_config Default cluster 0 = Some cfg
    ∧ Some <$> (Host <$> SeedServers (Redpanda (bootstrapConfig Default cluster)))
      = [AdvertisedRPCAPI (Redpanda cfg)].
Proof.
  eexists. split; [apply patched_config_value|].
  cbn. unfold pod_hostname. change (Itoa (Z.of_nat 0)) with "0".
  by rewrite !append_assoc.
Qed.

(** The script fails, and [set -e] stops it, when the shared artifact is not
    mounted: nothing is written. *)
Theorem script_fails_without_artifact (a : string) (rpc kafka : Z) (sh : Shell) :
  files sh !! (configuratorDir +:+ "/redpanda.yaml") = None →
  exec_Script (configurator a rpc kafka) sh = None.
Proof.
  intros H. unfold configurator. cbn [exec_Script exec_Command expand expand_Part files].
  rewrite !append_empty_r. cbn [mbind option_bind files].
  change ("/mnt/operator/redpanda.yaml") with (configuratorDir +:+ "/redpanda.yaml").
  by rewrite H.
Qed.

Lemma script_fails_without_artifact_witness :
  exec_Script (configurator "cluster-a.default.svc.cluster.local" 33145 9092)
    {| vars := {[ "HOSTNAME" := "cluster-a-0" ]}; files := ∅ |} = None.
Proof. apply script_fails_without_artifact. reflexivity. Defined.

(** ** The wiring of the synthesized objects *)

Lemma int32_of_int_id x : (-2 ^ 31 ≤ x < 2 ^ 31)%Z → int32_of_int x = x.
Proof. intros H. unfold int32_of_int. rewrite Z.mod_small; lia. Qed.

(** The identity service and the main container declare the ports of the
    spec as they are, converted to [int32], not the ports the generated
    configuration resolves: a port number passes the conversion unchanged,
    and with the kafka port left unset the service exposes port 0 while the
    engine listens on the default. *)
Theorem declared_ports_are_spec_ports {P : Type} (Default : Config) (cluster : Cluster P)
    (configMapName : string) (replicas : P) :
  let conf := Configuration (cl_Spec cluster) in
  let kafka := spec_Port (spec_KafkaAPI conf) in
  ss_Ports (svc_Spec (headlessService cluster))
  = [ {| sp_Name := "kafka-tcp"; sp_Protocol := "TCP"; sp_Port := int32_of_int kafka;
         sp_TargetPort := IntVal (int32_of_int kafka) |} ]
  ∧ (ctr_Ports <$>
       pod_Containers
         (tpl_Spec (sts_Template (sts_Spec (bootstrapStatefulSet cluster configMapName replicas)))))
    = [ [ {| cp_Name := "admin";
             cp_ContainerPort := int32_of_int (spec_Port (spec_AdminAPI conf)) |};
          {| cp_Name := "kafka"; cp_ContainerPort := int32_of_int kafka |};
          {| cp_Name := "rpc";
             cp_ContainerPort := int32_of_int (spec_Port (spec_RPCServer conf)) |} ] ]
  ∧ ((0 ≤ kafka ≤ 65535)%Z → int32_of_int kafka = kafka)
  ∧ (kafka = 0 →
     int32_of_int kafka = 0
     ∧ Port (KafkaApi (Redpanda (bootstrapConfig Default cluster)))
       = Port (KafkaApi (Redpanda Default))).
Proof.
  cbn zeta. split; [reflexivity|]. split; [reflexivity|]. split.
  - intros H. apply int32_of_int_id. lia.
  - intros H. split; [by rewrite H|]. cbn. by rewrite H.
Qed.

Lemma declared_ports_are_spec_ports_witness :
  int32_of_int 9092 = 9092
  ∧ Port (KafkaApi (Redpanda (bootstrapConfig sample_Default (sample_cluster 0 33145 fresh_status))))
    = 9092.
Proof.
  split.
  - exact (proj1 (proj2 (proj2
      (declared_ports_are_spec_ports sample_Default (sample_cluster 9092 33145 fresh_status)
         "cluster-a-base" 1))) ltac:(cbn; lia)).
  - exact (proj2 (proj2 (proj2 (proj2
      (declared_ports_are_spec_ports sample_Default (sample_cluster 0 33145 fresh_status)
         "cluster-a-base" 1))) eq_refl)).
Defined.

Lemma replace_from_absent old new s :
  has_substring old s = false → replace_from O old new s = s.
Proof.
  induction s as [|c s IH]; [reflexivity|].
  cbn [has_substring replace_from]. intros [Hp Hs]%orb_false_elim.
  rewrite Hp. by rewrite IH.
Qed.

(** A memory limit whose string form has no ["Gi"] in it, one in mebibytes or
    in a decimal unit, reaches the engine's flag as it is written. *)
Theorem memory_flag_verbatim {P : Type} (cluster : Cluster P) (configMapName : string)
    (replicas : P) :
  has_substring "Gi" (Quantity_String (memoryLimit cluster)) = false →
  memory_flag (bootstrapStatefulSet cluster configMapName replicas)
  = Some ("--memory " +:+ Quantity_String (memoryLimit cluster)).
Proof.
  intros H. unfold memory_flag.
  cbn [bootstrapStatefulSet sts_Spec sts_Template tpl_Spec pod_Containers lookup list_lookup
       mbind option_bind ctr_Args].
  unfold ReplaceAll. by rewrite replace_from_absent.
Qed.

Lemma memory_flag_verbatim_witness :
  memory_flag
    (bootstrapStatefulSet
       (with_cl_Replicas
          {| cl_ObjectMeta := cl_ObjectMeta (sample_cluster 9092 33145 fresh_status);
             cl_Spec :=
               {| Image := "vectorized/redpanda"; Version := "latest"; Replicas := Some 3;
                  Resources :=
                    {| Limits := {[ "memory" := MustParse "512Mi" ]}; Requests := ∅ |};
                  Configuration :=
                    Configuration (cl_Spec (sample_cluster 9092 33145 fresh_status)) |};
             cl_Status := fresh_status |} (Some 3))
       "cluster-a-base" 1)
  = Some "--memory 512Mi".
Proof. apply memory_flag_verbatim. reflexivity. Defined.

(** The wiring of the pod of the synthesized node set. Every volume a
    container mounts is a volume of the pod. The init container runs the
    script from the mount of the artifact, where the artifact holds it under
    the key ["configurator.sh"] beside ["redpanda.yaml"], the file the script
    copies; the artifact's volume is executable by its owner and group
    (mode 0754). The script writes to [configPath], under the directory at
    which the init container and the main container mount the same empty
    volume. The main container mounts the claimed data volume at the data
    directory of the generated configuration and does not mount the
    artifact. *)
Theorem pod_wiring {P : Type} (Default : Config) (cluster : Cluster P)
    (configMapName cfgBytes text : string) (replicas : P) :
  let s := bootstrapStatefulSet cluster configMapName replicas in
  let pod := tpl_Spec (sts_Template (sts_Spec s)) in
  ∃ init main : Container,
    pod_InitContainers pod = [init] ∧ pod_Containers pod = [main]
    ∧ (∀ ctr m, ctr ∈ [init; main] → m ∈ ctr_VolumeMounts ctr →
         is_Some (volume_source pod (vm_Name m)))
    ∧ volume_source pod "configmap-dir"
      = Some (ConfigMapVolumeSource configMapName (Some (7 * 64 + 5 * 8 + 4)))
    ∧ ctr_Command init = ["/bin/sh"; "-c"]
    ∧ (∃ dir, mount_path init "configmap-dir" = Some dir
         ∧ ctr_Args init = [dir +:+ "/" +:+ "configurator.sh"]
         ∧ Lit (dir +:+ "/" +:+ "redpanda.yaml")
           ∈ match configurator "" 0 0 !! 4%nat with
             | Some (Cp src _, _) => src
             | _ => []
             end)
    ∧ dom (cm_Data (bootstrapConfigMap cluster cfgBytes text))
      = {[ "configurator.sh"; "redpanda.yaml" ]}
    ∧ volume_source pod "config-dir" = Some EmptyDirVolumeSource
    ∧ (∃ dir, mount_path init "config-dir" = Some dir
         ∧ mount_path main "config-dir" = Some dir
         ∧ configPath = dir +:+ "/" +:+ "redpanda.yaml")
    ∧ volume_source pod "datadir" = Some (PersistentVolumeClaimVolumeSource "datadir")
    ∧ (Name ∘ pvc_ObjectMeta <$> sts_VolumeClaimTemplates (sts_Spec s)) = ["datadir"]
    ∧ mount_path main "datadir"
      = Some (Directory (Redpanda (bootstrapConfig Default cluster)))
    ∧ mount_path main "configmap-dir" = None
    ∧ ctr_Image init = ctr_Image main.
Proof.
  cbn zeta. eexists _, _. split; [reflexivity|]. split; [reflexivity|].
  split.
  { intros ctr m Hc Hm.
    repeat (apply elem_of_cons in Hc as [->|Hc]);
      [| |by apply elem_of_nil in Hc];
      cbn in Hm;
      repeat (apply elem_of_cons in Hm as [->|Hm]);
      try (by apply elem_of_nil in Hm); by eexists. }
  split; [reflexivity|]. split; [reflexivity|].
  split. { eexists. split; [reflexivity|]. split; [reflexivity|]. cbn. apply list_elem_of_here. }
  split. { unfold bootstrapConfigMap. cbn [cm_Data]. rewrite !dom_insert_L, dom_empty_L. set_solver. }
  split; [reflexivity|].
  split. { eexists. split; [reflexivity|]. split; reflexivity. }
  repeat split.
Qed.

Lemma pod_wiring_witness :
  is_Some
    (volume_source
       (tpl_Spec (sts_Template (sts_Spec
          (bootstrapStatefulSet (sample_cluster 9092 33145 fresh_status) "cluster-a-base" 1))))
       "config-dir").
Proof.
  destruct (pod_wiring sample_Default (sample_cluster 9092 33145 fresh_status)
              "cluster-a-base" "" "" 1) as (init & main & _ & Hm & Hv & _).
  apply (Hv main {| vm_Name := "config-dir"; vm_MountPath := configDir |}).
  - apply list_elem_of_further, list_elem_of_here.
  - injection Hm as <-. apply list_elem_of_further, list_elem_of_here.
Defined.



(** ** The reconcile loop *)

#[local] Arguments bootstrapStatefulSet : simpl never.
#[local] Arguments headlessService : simpl never.
#[local] Arguments bootstrapConfigMap : simpl never.
#[local] Arguments bootstrapConfig : simpl never.
#[local] Arguments script : simpl never.
#[local] Arguments SetControllerReference : simpl never.

Lemma neq_succ h : Nat.eqb (S h) h = false.
Proof. apply Nat.eqb_neq. lia. Qed.

Lemma neq_succ' h : Nat.eqb h (S h) = false.
Proof. apply Nat.eqb_neq. lia. Qed.

(** With the kind of the owner registered, setting the controller reference
    on a freshly synthesized object of the owner's namespace succeeds. *)
Lemma SetControllerReference_mkMeta {P} (owner : Cluster P) name ls scheme gvk :
  ClusterKind scheme = Some gvk →
  SetControllerReference owner (mkMeta (cl_Namespace owner) name ls) scheme
  = (with_owners (mkMeta (cl_Namespace owner) name ls) [controller_ref owner gvk], None).
Proof.
  intros Hk. unfold SetControllerReference. cbn [Namespace mkMeta OwnerReferences].
  rewrite Hk. destruct (String.eqb (cl_Namespace owner) "") eqn:E; cbn [negb andb].
  - done.
  - rewrite String.eqb_refl. done.
Qed.

Lemma SetControllerReference_Service {P} (owner : Cluster P) scheme gvk :
  ClusterKind scheme = Some gvk →
  SetControllerReference owner (svc_ObjectMeta (headlessService owner)) scheme
  = (with_owners (svc_ObjectMeta (headlessService owner)) [controller_ref owner gvk], None).
Proof. apply SetControllerReference_mkMeta. Qed.

Lemma SetControllerReference_ConfigMap {P} (owner : Cluster P) bytes text scheme gvk :
  ClusterKind scheme = Some gvk →
  SetControllerReference owner (cm_ObjectMeta (bootstrapConfigMap owner bytes text)) scheme
  = (with_owners (cm_ObjectMeta (bootstrapConfigMap owner bytes text))
       [controller_ref owner gvk], None).
Proof. apply SetControllerReference_mkMeta. Qed.

Lemma SetControllerReference_StatefulSet {P} (owner : Cluster P) name one scheme gvk :
  ClusterKind scheme = Some gvk →
  SetControllerReference owner (sts_ObjectMeta (bootstrapStatefulSet owner name one)) scheme
  = (with_owners (sts_ObjectMeta (bootstrapStatefulSet owner name one))
       [controller_ref owner gvk], None).
Proof. apply SetControllerReference_mkMeta. Qed.

(** A recorded node list is deeply equal to the observed names exactly when
    it has the same elements and is not the nil slice. *)
Lemma DeepEqual_strings_spec (names : list string) (recorded : option (list string)) :
  DeepEqual_strings (Some names) recorded = true
  ↔ slice_elems recorded = names ∧ recorded ≠ None.
Proof.
  unfold DeepEqual_strings. rewrite bool_decide_eq_true.
  destruct recorded as [l|]; cbn; split.
  - intros [= ->]. done.
  - intros [-> _]. done.
  - done.
  - intros [_ H]. done.
Qed.

Ltac go_unfold :=
  unfold invoke, run, Reconcile,
    createHeadlessService, createBootstrapConfigMap, createBootstrapStatefulSet,
    r_Get_Cluster, r_Get_Service, r_Get_ConfigMap, r_Get_StatefulSet,
    r_Create_Service, r_Create_ConfigMap, r_Create_StatefulSet,
    r_Update_StatefulSet, r_List_Pods, r_Status_Update,
    decode_Cluster, decode_StatefulSet, decode_ptr, new_int32,
    remote, when, return_, call_fn, set_sts_Replicas;
  unfold mbind, mret, Go_bind, Go_ret.

Ltac go_simpl :=
  cbn [is_nil negb andb fst snd response_of_read response_of_write world next trace
       ptr_eqb cell_addr cell_val sts_Replicas sts_Spec Replicas cl_Spec
       with_cl_Replicas with_sts_Replicas zero_StatefulSet app];
  rewrite ?neq_succ, ?neq_succ', ?Nat.eqb_refl;
  change (IsNotFound None) with false;
  cbn [is_nil negb andb fst snd response_of_read response_of_write world next trace app].

Ltac go_case Y :=
  match goal with
  | |- context [Get_Cluster ?k ?w] => destruct (Get_Cluster k w) as [[?|?] ?] eqn:?
  | |- context [Get_Service ?k ?w] => destruct (Get_Service k w) as [[?|?] ?] eqn:?
  | |- context [Get_ConfigMap ?k ?w] => destruct (Get_ConfigMap k w) as [[?|?] ?] eqn:?
  | |- context [Get_StatefulSet ?k ?w] => destruct (Get_StatefulSet k w) as [[?|?] ?] eqn:?
  | |- context [Create_Service ?k ?w] => destruct (Create_Service k w) as [[?|] ?] eqn:?
  | |- context [Create_ConfigMap ?k ?w] => destruct (Create_ConfigMap k w) as [[?|] ?] eqn:?
  | |- context [Create_StatefulSet ?k ?w] => destruct (Create_StatefulSet k w) as [[?|] ?] eqn:?
  | |- context [Update_StatefulSet ?k ?w] => destruct (Update_StatefulSet k w) as [[?|] ?] eqn:?
  | |- context [List_Pods ?k ?w] => destruct (List_Pods k w) as [[?|?] ?] eqn:?
  | |- context [Status_Update ?k ?w] => destruct (Status_Update k w) as [[?|] ?] eqn:?
  | |- context [IsNotFound (Some ?e)] => destruct (IsNotFound (Some e)) eqn:?
  | |- context [SetControllerReference ?o ?m ?s] =>
      destruct (SetControllerReference o m s) as [? [?|]] eqn:?
  | |- context [Y ?c] => destruct (Y c) as [? [?|]] eqn:?
  | |- context [match Replicas (cl_Spec ?c) with _ => _ end] =>
      destruct (Replicas (cl_Spec c)) eqn:?
  | |- context [match sts_Replicas (sts_Spec ?c) with _ => _ end] =>
      destruct (sts_Replicas (sts_Spec c)) eqn:?
  | |- context [DeepEqual_strings ?a ?b] => destruct (DeepEqual_strings a b) eqn:?
  | |- context [DeepEqual_int32 ?a ?b] => destruct (DeepEqual_int32 a b) eqn:?
  end.

Ltac go_absurd :=
  match goal with
  | H : ∀ c, snd (?Y c) = None, E : ?Y ?x = (_, Some _) |- _ =>
      exfalso; specialize (H x); rewrite E in H; discriminate
  end.

Ltac go_owner :=
  repeat match goal with
         | H : ClusterKind _ = Some _ |- _ =>
             progress rewrite ?(SetControllerReference_Service _ _ _ H),
               ?(SetControllerReference_ConfigMap _ _ _ _ _ H),
               ?(SetControllerReference_StatefulSet _ _ _ _ _ H)
         end.

(** Runs the loop symbolically, with a case for every answer of the control
    plane. *)
Ltac go_run Y :=
  go_unfold; repeat (go_simpl; go_owner; go_simpl; go_case Y; try go_absurd); go_simpl.

Ltac use_facts :=
  repeat match goal with
         | H : IsNotFound _ = _ |- _ => rewrite H
         | H : Replicas _ = _ |- _ => rewrite H
         | H : sts_Replicas _ = _ |- _ => rewrite H
         end.

Ltac leaf :=
  repeat first
    [ exact I
    | match goal with |- _ ∧ _ => split end
    | match goal with |- context [decide ?P] => destruct (decide P); try (exfalso; (tauto || congruence)) end
    | match goal with |- ∃ _, _ => eexists end
    | reflexivity
    | progress cbn [fst snd] ].

Ltac steps_leaf :=
  cbn [child_steps]; use_facts; cbn [child_steps]; use_facts; cbn [child_steps]; use_facts;
  unfold closing_steps; cbn [last];
  repeat first
    [ match goal with |- _ ∧ _ => split end
    | match goal with |- Forall _ [] => apply Forall_nil_2 end
    | match goal with |- Forall _ (_ :: _) => apply Forall_cons_2 end
    | reflexivity
    | done ].

Ltac marshal_facts :=
  repeat match goal with
         | H : ?Y ?x = (?s, None) |- _ =>
             is_var s; assert (s = fst (Y x)) by (by rewrite H); subst s; clear H
         end.

Section Loop.

Context {W : Type} `{!Client W}.
Variable config_Default : Config.
Variable yaml_Marshal : Config → string * option error.

(** C4. When the fetch of the desired-state resource fails, the invocation
    returns no error if the failure is not-found and the error of the fetch
    otherwise, and the fetch is its only call: it creates, updates and
    writes nothing. *)
Theorem desired_fetch_error_handling (r : ClusterReconciler) (req : Request) (w : W)
    (h : addr) (e : error) (w' : W) :
  Get_Cluster (req_NamespacedName req) w = (inl e, w') →
  let out := invoke config_Default yaml_Marshal r req w h in
  (IsNotFound (Some e) = true → returned_error out = None)
  ∧ (IsNotFound (Some e) = false → returned_error out = Some e)
  ∧ events out = [(CallGetCluster (req_NamespacedName req), Failed e)]
  ∧ filter is_write (calls (events out)) = []
  ∧ fst (fst out) = Result_zero.
Proof.
  intros H. cbn zeta. go_unfold. go_simpl. rewrite H. go_simpl.
  unfold returned_error, events, IgnoreNotFound; cbn.
  repeat split; by intros ->.
Qed.

(** C5. With the kind of the cluster registered in the scheme, a marshaller
    that does not fail and the desired-state resource [c] fetched, the
    invocation goes on with the three children of [c] in turn, as
    [child_steps] says: each is fetched by its derived name; when the fetch
    is answered not-found the next call is the create of the synthesized
    child under that name, and after a successful create the invocation goes
    on with the next child; when the fetch fails otherwise the invocation
    ends there, with no create, and returns the error of the fetch. What the
    invocation returns is the error of its last call when that failed, and
    no error otherwise: never the not-found of a fetch. *)
Theorem child_fetch_error_handling (r : ClusterReconciler) (req : Request) (w : W)
    (h : addr) (gvk : GroupVersionKind) (c : Cluster Z) (w' : W) :
  ClusterKind (r_Scheme r) = Some gvk →
  (∀ cfg, snd (yaml_Marshal cfg) = None) →
  Get_Cluster (req_NamespacedName req) w = (inr c, w') →
  let out := invoke config_Default yaml_Marshal r req w h in
  ∃ rest,
    events out = (CallGetCluster (req_NamespacedName req), GotCluster c) :: rest
    ∧ child_steps (synthesized config_Default yaml_Marshal gvk c) (returned_error out)
        (children c) rest.
Proof.
  intros Hk HY Hget. cbn zeta.
  go_unfold. go_simpl. rewrite Hget.
  repeat (go_simpl; go_owner; go_simpl; go_case yaml_Marshal; try go_absurd).
  all: go_simpl.
  all: unfold events, returned_error; cbn [fst snd trace].
  all: eexists; split; [reflexivity|].
  all: unfold children; marshal_facts.
  all: steps_leaf.
Qed.

(** The replica-count step on every path of the loop: see [replica_step]. *)
Lemma replica_step_taken (r : ClusterReconciler) (req : Request) (w : W) (h : addr) :
  let out := invoke config_Default yaml_Marshal r req w h in
  match events out with
  | (CallGetCluster _, GotCluster c) :: _ =>
      each_event (replica_step c (returned_error out)) (events out)
  | _ => True
  end.
Proof.
  cbn zeta.
  go_run yaml_Marshal.
  all: unfold events, returned_error, encode_StatefulSet, encode_Cluster;
    cbn [fst snd trace each_event replica_step is_update aborts_on].
  all: use_facts.
  all: cbn [sts_Replicas sts_Spec zero_StatefulSet with_sts_Replicas fmap option_fmap
            option_map cell_val Replicas cl_Spec with_cl_Replicas].
  all: use_facts.
  all: repeat split; try done.
  all: try (eexists _, _; split; [reflexivity|]; cbn [aborts_on]; done).
Qed.

(** C8, as amended. After a successful listing, made with the label set and
    the namespace of the cluster, the status writes are those of
    [status_writes]: the node list is written, as the observed names in
    their order, exactly when the recorded list differs from them as a
    sequence or is nil; the ready-replica count is written in a call of its
    own exactly when it differs from the node set's, unless the first write
    failed. *)
Theorem status_projection (r : ClusterReconciler) (req : Request) (w : W) (h : addr) :
  status_projected (invoke config_Default yaml_Marshal r req w h).
Proof.
  unfold status_projected.
  go_run yaml_Marshal.
  all: unfold events, returned_error, encode_StatefulSet, encode_Cluster;
    cbn [fst snd trace each_event ready_replicas_seen].
  all: try exact I.
  all: unfold status_writes; cbn [sts_Status with_sts_Replicas zero_StatefulSet ReadyReplicas
         cl_Status with_cl_Replicas set_status_Nodes set_status_Replicas status_Nodes
         status_Replicas] in *.
  all: repeat match goal with
         | H : DeepEqual_strings _ _ = true |- _ => apply DeepEqual_strings_spec in H
         | H : DeepEqual_strings _ _ = false |- _ =>
             apply not_true_iff_false in H; rewrite DeepEqual_strings_spec in H
         | H : DeepEqual_int32 _ _ = true |- _ => apply Z.eqb_eq in H
         | H : DeepEqual_int32 _ _ = false |- _ => apply Z.eqb_neq in H
         end.
  all: destruct c as [m [i v rp rs cf] st];
    repeat match goal with
           | H : Replicas _ = _ |- _ => cbn [Replicas cl_Spec] in H; subst rp
           end.
  all: unfold cl_Labels, cl_Namespace;
    cbn [cl_ObjectMeta cl_Spec cl_Status with_cl_Replicas set_status_Nodes set_status_Replicas
         status_Nodes status_Replicas Replicas Image Version Resources Configuration
         fmap option_fmap option_map cell_val] in *.
  all: leaf.
  all: try congruence.
Qed.

End Loop.

(** ** The loop on the in-memory control plane *)

Lemma desired_fetch_error_handling_witness :
  returned_error (sample_invoke empty_world 0%nat) = None
  ∧ events (sample_invoke empty_world 0%nat)
    = [(CallGetCluster sample_key, Failed (NewNotFound "Cluster" "cluster-a"))].
Proof.
  pose proof (desired_fetch_error_handling sample_Default sample_Marshal sample_reconciler
                sample_request empty_world 0%nat (NewNotFound "Cluster" "cluster-a") empty_world
                eq_refl) as (Hnf & _ & Hev & _).
  split; [exact (Hnf eq_refl) | exact Hev].
Defined.

Lemma child_fetch_error_handling_witness :
  let cluster := sample_cluster 9092 33145 fresh_status in
  let out := sample_invoke fresh_world 0%nat in
  ∃ rest,
    events out = (CallGetCluster sample_key, GotCluster cluster) :: rest
    ∧ child_steps (synthesized sample_Default sample_Marshal sample_gvk cluster)
        (returned_error out) (children cluster) rest.
Proof.
  apply (child_fetch_error_handling sample_Default sample_Marshal sample_reconciler
           sample_request fresh_world 0%nat sample_gvk
           (sample_cluster 9092 33145 fresh_status) fresh_world).
  - reflexivity.
  - intros c. reflexivity.
  - reflexivity.
Defined.

(** C1 fails on the code. On the converged sample cluster a first invocation
    succeeds and leaves the control plane as it was, and the second
    invocation still issues an update of the node set. *)
Theorem second_invocation_updates_node_set :
  let first := sample_invoke converged_world 0%nat in
  let second := sample_invoke (world (snd first)) (next (snd first)) in
  returned_error first = None
  ∧ world (snd first) = converged_world
  ∧ returned_error second = None
  ∧ filter is_write (calls (events second))
    = [CallUpdateStatefulSet (sample_node_set converged_status 3 3)].
Proof. vm_compute. repeat split; reflexivity. Qed.

(** C2 fails on the code. The node set exists and declares the three
    replicas the desired-state resource declares; the invocation updates it
    all the same. *)
Theorem equal_counts_still_updated :
  let out := sample_invoke converged_world 0%nat in
  Replicas (cl_Spec (sample_cluster 9092 33145 converged_status)) = Some 3
  ∧ sts_Replicas (sts_Spec (sample_node_set converged_status 3 3)) = Some 3
  ∧ events out !! 3%nat
    = Some (CallGetStatefulSet sample_key,
            GotStatefulSet (sample_node_set converged_status 3 3))
  ∧ calls (events out)
    = [ CallGetCluster sample_key; CallGetService sample_key;
        CallGetConfigMap sample_base_key; CallGetStatefulSet sample_key;
        CallUpdateStatefulSet (sample_node_set converged_status 3 3);
        CallListPods sample_list_options ].
Proof. vm_compute. repeat split; reflexivity. Qed.

(** C3 fails on the code. With the three child resources absent the
    invocation creates the identity service, the config artifact and the
    node set with replica count 1, in that order, and then attempts the
    replica-count update in the same invocation, on the variable [sts] that
    the failed fetch left at its zero value: an update of a nameless node
    set carrying the desired count, which the control plane refuses. *)
Theorem update_attempted_after_creation :
  let out := sample_invoke fresh_world 0%nat in
  created <$> filter is_write (calls (events out))
  = [ Some (IdentityService, sample_key); Some (ConfigArtifact, sample_base_key);
      Some (NodeSet, sample_key); None ]
  ∧ match calls (events out) !! 6%nat with
    | Some (CallCreateStatefulSet obj) => sts_Replicas (sts_Spec obj)
    | _ => None
    end = Some 1
  ∧ calls (events out) !! 7%nat
    = Some (CallUpdateStatefulSet (with_sts_Replicas (@zero_StatefulSet Z) (Some 3)))
  ∧ length (events out) = 8%nat
  ∧ returned_error out = Some (NewInvalid "StatefulSet").
Proof. vm_compute. repeat split; reflexivity. Qed.

(** C8 as stated fails: with no pod observed and a recorded node list that
    was never written, the observed sequence does not differ from the
    recorded one, both are empty, and the node list is written all the
    same. *)
Lemma status_written_for_nil_list :
  let out := sample_invoke podless_world 0%nat in
  slice_elems (status_Nodes fresh_status)
  = pod_names (fake_list sample_list_options (cp_Pods podless_world))
  ∧ filter is_status_update (calls (events out))
    = [CallStatusUpdate (set_status_Nodes (sample_cluster 9092 33145 fresh_status) (Some []))].
Proof. vm_compute. repeat split; reflexivity. Qed.

(** ** Every path of the loop *)

Lemma each_event_impl (P Q : Event → list Event → Prop) (tr : list Event) :
  (∀ ev rest, P ev rest → Q ev rest) → each_event P tr → each_event Q tr.
Proof.
  intros H. induction tr as [|ev tr IH]; [done|].
  cbn. intros [Hev Htr]. split; [by apply H|by apply IH].
Qed.

(** A controller reference that was set on a fresh object is its only owner
    reference; the other metadata is as it was. *)
Lemma SetControllerReference_success {P} (owner : Cluster P) (m m' : ObjectMeta)
    (scheme : Scheme) :
  SetControllerReference owner m scheme = (m', None) →
  OwnerReferences m = [] →
  ∃ gvk, m' = with_owners m [controller_ref owner gvk].
Proof.
  unfold SetControllerReference. intros H Hm. rewrite Hm in H. cbn in H.
  repeat match type of H with
         | (if ?b then _ else _) = _ => destruct b; [discriminate|]
         end.
  destruct (ClusterKind scheme) as [gvk|]; [|discriminate].
  injection H as <-. by exists gvk.
Qed.

Lemma meta_Service {P} (c : Cluster P) :
  svc_ObjectMeta (headlessService c) = mkMeta (cl_Namespace c) (cl_Name c) (cl_Labels c).
Proof. reflexivity. Qed.

Lemma meta_ConfigMap {P} (c : Cluster P) bytes text :
  cm_ObjectMeta (bootstrapConfigMap c bytes text)
  = mkMeta (cl_Namespace c) (cl_Name c +:+ baseSuffix) (cl_Labels c).
Proof. reflexivity. Qed.

Lemma meta_StatefulSet {P} (c : Cluster P) name one :
  sts_ObjectMeta (bootstrapStatefulSet c name one)
  = mkMeta (cl_Namespace c) (cl_Name c) (cl_Labels c).
Proof. reflexivity. Qed.

Lemma controlled_by_fresh {P} (c : Cluster Z) (p : option P) name gvk :
  controlled_by c
    (with_owners
       (mkMeta (cl_Namespace (with_cl_Replicas c p)) name (cl_Labels (with_cl_Replicas c p)))
       [controller_ref (with_cl_Replicas c p) gvk]).
Proof. unfold controlled_by. cbn. repeat split. by eexists. Qed.

Ltac owner_facts :=
  repeat match goal with
         | H : SetControllerReference _ _ _ = (_, None) |- _ =>
             apply SetControllerReference_success in H as [? ->]; [|reflexivity]
         end.

Ltac order_leaf :=
  first [ left; cbn; lia | right; done ].

Ltac source_leaf :=
  first [ exact I
        | left; reflexivity
        | right; split; [by eexists | done] ].

Section Paths.

Context {W : Type} `{!Client W}.
Variable config_Default : Config.
Variable yaml_Marshal : Config → string * option error.

(** What holds at the end of every path of the loop. *)
Lemma loop_well_behaved (r : ClusterReconciler) (req : Request) (w : W) (h : addr) :
  let out := invoke config_Default yaml_Marshal r req w h in
  fst (fst out) = Result_zero
  ∧ (length (events out) ≤ 11)%nat
  ∧ error_source (returned_error out) (events out)
  ∧ match events out with
    | (CallGetCluster key, resp) :: rest =>
        key = req_NamespacedName req
        ∧ match resp with
          | GotCluster c => each_event (well_behaved c (returned_error out)) (events out)
          | Failed e => rest = [] ∧ returned_error out = IgnoreNotFound (Some e)
          | _ => False
          end
    | _ => False
    end.
Proof.
  cbn zeta.
  go_run yaml_Marshal.
  all: owner_facts.
  all: unfold events, returned_error, error_source, encode_StatefulSet, with_sts_owners;
    cbn [fst snd trace length last].
  all: split; [reflexivity|]; split; [lia|].
  all: use_facts.
  all: unfold IgnoreNotFound;
    repeat match goal with
           | |- context [IsNotFound (Some ?e)] => destruct (IsNotFound (Some e)) eqn:?
           end.
  all: split; [source_leaf|].
  all: split; [reflexivity|].
  all: try (split; reflexivity).
  all: cbn [each_event]; unfold well_behaved, error_propagated, create_justified,
         create_controlled, in_order;
    cbn [is_get fetched created created_meta phase is_status_update fst snd andb
         sts_ObjectMeta with_sts_Replicas];
    rewrite ?meta_Service, ?meta_ConfigMap, ?meta_StatefulSet.
  all: use_facts; cbn [andb].
  all: repeat split.
  all: try done.
  all: try order_leaf.
  all: try apply controlled_by_fresh.
  all: try (eexists; repeat split; done).
Qed.

(** Every failed answer of the control plane other than a not-found answer
    to a read by name ends the invocation, which returns that error as it
    is; and an error that the invocation returns is the failed answer to its
    last call, or comes from a synthesizer that failed before its create. *)
Theorem errors_are_propagated (r : ClusterReconciler) (req : Request) (w : W) (h : addr) :
  let out := invoke config_Default yaml_Marshal r req w h in
  each_event (error_propagated (returned_error out)) (events out)
  ∧ error_source (returned_error out) (events out).
Proof.
  cbn zeta. destruct (loop_well_behaved r req w h) as (_ & _ & Hs & Hev).
  split; [|exact Hs]. clear Hs.
  destruct (events _) as [|[[] resp] rest]; try done.
  destruct Hev as [_ Hev]. destruct resp; try done.
  - destruct Hev as [-> ->]. cbn [each_event]. unfold error_propagated, IgnoreNotFound.
    cbn [is_get andb]. destruct (IsNotFound (Some err)); done.
  - eapply each_event_impl; [|exact Hev]. intros ev rest' H. apply H.
Qed.

(** The first call of an invocation fetches the desired-state resource by the
    key of the request, and a child resource is only created by the call
    right after a fetch of that child, under the same name, that was
    answered not-found: a child that was found is never created again. *)
Theorem creates_follow_not_found (r : ClusterReconciler) (req : Request) (w : W) (h : addr) :
  let out := invoke config_Default yaml_Marshal r req w h in
  each_event create_justified (events out)
  ∧ ∃ resp rest, events out = (CallGetCluster (req_NamespacedName req), resp) :: rest.
Proof.
  cbn zeta. destruct (loop_well_behaved r req w h) as (_ & _ & _ & Hev).
  destruct (events _) as [|[[] resp] rest]; try done.
  destruct Hev as [-> Hev]. split; [|by eexists _, _].
  destruct resp; try done.
  - destruct Hev as [-> _]. by cbn.
  - eapply each_event_impl; [|exact Hev]. intros ev rest' H. apply H.
Qed.

(** Every child resource the loop creates is controlled by the desired-state
    resource it fetched: it lives in its namespace, carries its labels, and
    its one owner reference names it as the controller. *)
Theorem created_children_are_controlled (r : ClusterReconciler) (req : Request) (w : W)
    (h : addr) (key : NamespacedName) (c : Cluster Z) (rest : list Event) :
  let out := invoke config_Default yaml_Marshal r req w h in
  events out = (CallGetCluster key, GotCluster c) :: rest →
  each_event (create_controlled c) (events out).
Proof.
  cbn zeta. destruct (loop_well_behaved r req w h) as (_ & _ & _ & Hev).
  intros Heq. rewrite Heq in Hev. destruct Hev as [_ Hev]. rewrite Heq.
  eapply each_event_impl; [|exact Hev]. intros ev rest' H. apply H.
Qed.

(** The calls of an invocation follow the sequence of the loop: each call
    belongs to a later phase than the one before it, except for a second
    status update, which ends the invocation. So no call but the status
    update is made twice, an invocation makes at most eleven calls, and
    whatever its outcome it returns the zero result: it never asks for a
    requeue. *)
Theorem calls_in_order (r : ClusterReconciler) (req : Request) (w : W) (h : addr) :
  let out := invoke config_Default yaml_Marshal r req w h in
  each_event in_order (events out)
  ∧ (length (events out) ≤ 11)%nat
  ∧ fst (fst out) = Result_zero.
Proof.
  cbn zeta. destruct (loop_well_behaved r req w h) as (Hr & Hl & _ & Hev).
  split; [|by split].
  destruct (events _) as [|[[] resp] rest]; try done.
  destruct Hev as [_ Hev]. destruct resp; try done.
  - destruct Hev as [-> _]. by cbn.
  - eapply each_event_impl; [|exact Hev]. intros ev rest' H. apply H.
Qed.

(** A synthesizer that fails before its create makes no call and returns its
    error: with a scheme in which the kind of the cluster is not registered
    none of the three creates anything, and the config synthesizer returns
    the error of the marshaller without asking the scheme. *)
Theorem synthesizer_failures_are_returned (cluster : Cluster int32_cell) (scheme : Scheme)
    (name : string) (m : Machine W) :
  let no_kind := Some (PlainError "no kind is registered for the type Cluster") in
  (ClusterKind scheme = None →
   run (createHeadlessService cluster scheme) m = (no_kind, m)
   ∧ (snd (yaml_Marshal (bootstrapConfig config_Default cluster)) = None →
      run (createBootstrapConfigMap config_Default yaml_Marshal cluster scheme) m
      = (no_kind, m))
   ∧ run (createBootstrapStatefulSet cluster scheme name) m
     = (no_kind, {| world := world m; next := S (next m); trace := trace m |}))
  ∧ (∀ e, snd (yaml_Marshal (bootstrapConfig config_Default cluster)) = Some e →
     run (createBootstrapConfigMap config_Default yaml_Marshal cluster scheme) m
     = (Some e, m)).
Proof.
  assert (Hno : ∀ nm ls,
             ClusterKind scheme = None →
             SetControllerReference cluster (mkMeta (cl_Namespace cluster) nm ls) scheme
             = (mkMeta (cl_Namespace cluster) nm ls,
                Some (PlainError "no kind is registered for the type Cluster"))).
  { intros nm ls Hk. unfold SetControllerReference. cbn [Namespace mkMeta]. rewrite Hk.
    destruct (String.eqb (cl_Namespace cluster) "") eqn:E; cbn [negb andb]; [done|].
    by rewrite String.eqb_refl. }
  cbn zeta. split.
  - intros Hk. split; [|split].
    + unfold run, createHeadlessService. rewrite meta_Service, Hno by done.
      by destruct m.
    + intros HY. unfold run, createBootstrapConfigMap.
      destruct (yaml_Marshal _) as [bytes err]. cbn in HY. subst err.
      rewrite meta_ConfigMap, Hno by done. by destruct m.
    + unfold run, createBootstrapStatefulSet, new_int32, mbind, Go_bind.
      rewrite meta_StatefulSet, Hno by done. done.
  - intros e HY. unfold run, createBootstrapConfigMap.
    destruct (yaml_Marshal _) as [bytes err]. cbn in HY. subst err. by destruct m.
Qed.

End Paths.

Lemma created_children_are_controlled_witness :
  each_event (create_controlled (sample_cluster 9092 33145 fresh_status))
    (events (sample_invoke fresh_world 0%nat)).
Proof.
  eapply (created_children_are_controlled sample_Default sample_Marshal sample_reconciler
            sample_request fresh_world 0%nat).
  vm_compute. reflexivity.
Defined.

Lemma synthesizer_failures_are_returned_witness :
  run (createBootstrapConfigMap sample_Default failing_Marshal
         (with_cl_Replicas (sample_cluster 9092 33145 fresh_status) None) empty_scheme)
    {| world := fresh_world; next := 0%nat; trace := [] |}
  = (Some (PlainError "cannot marshal"),
     {| world := fresh_world; next := 0%nat; trace := [] |})
  ∧ run (createHeadlessService
           (with_cl_Replicas (sample_cluster 9092 33145 fresh_status) None) empty_scheme)
      {| world := fresh_world; next := 0%nat; trace := [] |}
    = (Some (PlainError "no kind is registered for the type Cluster"),
       {| world := fresh_world; next := 0%nat; trace := [] |}).
Proof.
  pose proof (synthesizer_failures_are_returned (W := ControlPlane) sample_Default
                failing_Marshal
                (with_cl_Replicas (sample_cluster 9092 33145 fresh_status) None)
                empty_scheme "cluster-a-base"
                {| world := fresh_world; next := 0%nat; trace := [] |}) as [Hk Hy].
  split.
  - apply Hy. reflexivity.
  - apply Hk. reflexivity.
Defined.
